(** * Telecom billing agents: a shallow embedding of the query pipeline

    The Python modules embedded here are
    - [app/utils/guardrails.py]      (GuardrailsChecker)
    - [app/rag/retriever.py]         (TelecomRetriever)
    - [app/agents/billing.py]        (BillingAgent)
    - [app/agents/manager.py]        (ManagerAgent)
    - [app/agents/sales.py]          (SalesAgent)
    - [app/memory/entity_extractor.py] (EntityExtractor)
    - [app/memory/session_store.py]  (SessionData, SessionStore)
    - [app/graph.py]                 (the LangGraph workflow and [run_query]).

    Text is ASCII text ([list ascii] inside the matchers, [string] at the
    interfaces).  Floats (similarity scores, the confidence threshold) are
    rationals [Q].  The external services (completion, vector search) are
    part of an explicit world record threaded through the code. *)

From Stdlib Require Import String Ascii List ZArith QArith Bool Lia.
From Stdlib Require Import DecimalString.
From Stdlib Require Import Sorting.Sorted.
Import ListNotations.
Open Scope string_scope.

(* ================================================================= *)
(** ** Python string helpers on ASCII text *)

Module Py.
Local Open Scope nat_scope.

Definition is_upper (c : ascii) : bool :=
  let n := nat_of_ascii c in (65 <=? n) && (n <=? 90).
Definition is_lower (c : ascii) : bool :=
  let n := nat_of_ascii c in (97 <=? n) && (n <=? 122).
Definition is_digit (c : ascii) : bool :=
  let n := nat_of_ascii c in (48 <=? n) && (n <=? 57).
Definition is_alpha (c : ascii) : bool := is_upper c || is_lower c.
(** [\w] on ASCII text: letters, digits and underscore. *)
Definition is_word (c : ascii) : bool :=
  is_alpha c || is_digit c || (c =? "_")%char.
(** [str.isspace] / [\s] on ASCII text. *)
Definition is_space (c : ascii) : bool :=
  let n := nat_of_ascii c in (n =? 32) || ((9 <=? n) && (n <=? 13)).

Definition lower_c (c : ascii) : ascii :=
  if is_upper c then ascii_of_nat (nat_of_ascii c + 32) else c.
Definition upper_c (c : ascii) : ascii :=
  if is_lower c then ascii_of_nat (nat_of_ascii c - 32) else c.

Definition lower (s : string) : string :=
  string_of_list_ascii (map lower_c (list_ascii_of_string s)).
Definition upper (s : string) : string :=
  string_of_list_ascii (map upper_c (list_ascii_of_string s)).

(** [str.title]: a letter following a letter is lowered, any other
    letter is raised. *)
Fixpoint title_l (prev_alpha : bool) (l : list ascii) : list ascii :=
  match l with
  | [] => []
  | c :: r =>
      (if is_alpha c then (if prev_alpha then lower_c c else upper_c c) else c)
        :: title_l (is_alpha c) r
  end.
Definition title (s : string) : string :=
  string_of_list_ascii (title_l false (list_ascii_of_string s)).

(** [x in y] for two strings: substring test. *)
Fixpoint prefixb (p s : list ascii) : bool :=
  match p, s with
  | [], _ => true
  | a :: p', b :: s' => (a =? b)%char && prefixb p' s'
  | _ :: _, [] => false
  end.
Fixpoint contains_l (p s : list ascii) : bool :=
  prefixb p s || match s with [] => false | _ :: s' => contains_l p s' end.
Definition contains (needle hay : string) : bool :=
  contains_l (list_ascii_of_string needle) (list_ascii_of_string hay).

Definition startswith (s p : string) : bool :=
  prefixb (list_ascii_of_string p) (list_ascii_of_string s).
Definition endswith (s p : string) : bool :=
  prefixb (rev (list_ascii_of_string p)) (rev (list_ascii_of_string s)).

(** [s[n:]] and [s[:-n]]. *)
Definition drop (n : nat) (s : string) : string :=
  string_of_list_ascii (skipn n (list_ascii_of_string s)).
Definition drop_last (n : nat) (s : string) : string :=
  string_of_list_ascii
    (rev (skipn n (rev (list_ascii_of_string s)))).

(** [str.strip()] *)
Fixpoint lstrip_l (l : list ascii) : list ascii :=
  match l with
  | c :: r => if is_space c then lstrip_l r else l
  | [] => []
  end.
Definition strip (s : string) : string :=
  string_of_list_ascii
    (rev (lstrip_l (rev (lstrip_l (list_ascii_of_string s))))).

(** [str.split()] with no separator: runs of whitespace separate words,
    empty words are dropped. *)
Fixpoint split_ws_aux (cur : list ascii) (l : list ascii) : list (list ascii) :=
  match l with
  | [] => match cur with [] => [] | _ => [rev cur] end
  | c :: r =>
      if is_space c
      then match cur with
           | [] => split_ws_aux [] r
           | _ => rev cur :: split_ws_aux [] r
           end
      else split_ws_aux (c :: cur) r
  end.
Definition split (s : string) : list string :=
  map string_of_list_ascii (split_ws_aux [] (list_ascii_of_string s)).

(** [sep.join(xs)] *)
Fixpoint join (sep : string) (xs : list string) : string :=
  match xs with
  | [] => ""
  | [x] => x
  | x :: r => x ++ sep ++ join sep r
  end.

End Py.

(* ================================================================= *)
(** ** The [re] module: a backtracking matcher

    A regular expression is matched in continuation-passing style, which
    gives Python's leftmost, priority-ordered (greedy, left alternative
    first) semantics.  Capturing groups are recorded in an association
    list, the latest capture of a group shadowing older ones. *)

Module Re.
Local Open Scope nat_scope.

Inductive regex : Type :=
  | RChar (c : ascii)                     (* a literal character *)
  | RClass (p : ascii -> bool)            (* a character class *)
  | RSeq (r1 r2 : regex)
  | RAlt (r1 r2 : regex)                  (* r1 | r2, r1 tried first *)
  | RStar (r : regex)                     (* greedy r* *)
  | ROpt (r : regex)                      (* greedy r? *)
  | RGroup (n : nat) (r : regex)          (* capturing group n *)
  | RWordB                                (* \b *)
  | RBol                                  (* ^ without MULTILINE *)
  | REps.

Definition caps := list (nat * (nat * nat)).

Section Match.
Variable icase : bool.
Variable s : list ascii.

Definition char_at (i : nat) : option ascii := nth_error s i.

Definition char_ok (c d : ascii) : bool :=
  if icase then (Py.lower_c c =? Py.lower_c d)%char else (c =? d)%char.
Definition class_ok (p : ascii -> bool) (d : ascii) : bool :=
  p d || (icase && (p (Py.lower_c d) || p (Py.upper_c d))).

Definition word_at (i : nat) : bool :=
  match char_at i with Some c => Py.is_word c | None => false end.
Definition word_boundary (i : nat) : bool :=
  let before := match i with 0 => false | S j => word_at j end in
  xorb before (word_at i).

Fixpoint m {A : Type} (r : regex) (i : nat) (cs : caps)
         (k : nat -> caps -> option A) : option A :=
  match r with
  | RChar c =>
      match char_at i with
      | Some d => if char_ok c d then k (S i) cs else None
      | None => None
      end
  | RClass p =>
      match char_at i with
      | Some d => if class_ok p d then k (S i) cs else None
      | None => None
      end
  | RSeq r1 r2 => m r1 i cs (fun j cs' => m r2 j cs' k)
  | RAlt r1 r2 =>
      match m r1 i cs k with
      | Some a => Some a
      | None => m r2 i cs k
      end
  | RStar r1 =>
      (* at most one iteration per remaining character; an empty
         iteration ends the loop *)
      let fix loop (fuel : nat) (j : nat) (cs' : caps) : option A :=
        match fuel with
        | 0 => k j cs'
        | S fuel' =>
            match m r1 j cs'
                    (fun j' cs'' => if (j' =? j)%nat then None
                                    else loop fuel' j' cs'') with
            | Some a => Some a
            | None => k j cs'
            end
        end in
      loop (S (length s - i)) i cs
  | ROpt r1 =>
      match m r1 i cs k with
      | Some a => Some a
      | None => k i cs
      end
  | RGroup n r1 => m r1 i cs (fun j cs' => k j ((n, (i, j)) :: cs'))
  | RWordB => if word_boundary i then k i cs else None
  | RBol => match i with 0 => k i cs | _ => None end
  | REps => k i cs
  end.

(** A successful match: start, end and captures. *)
Record mresult := MResult { m_start : nat; m_end : nat; m_caps : caps }.

Definition match_at (r : regex) (i : nat) : option mresult :=
  m r i [] (fun j cs => Some (MResult i j cs)).

(** [pattern.search(text)] from position [i] on. *)
Fixpoint search_from (r : regex) (fuel i : nat) : option mresult :=
  match match_at r i with
  | Some x => Some x
  | None =>
      match fuel with
      | 0 => None
      | S f => search_from r f (S i)
      end
  end.

End Match.

Definition slice (s : list ascii) (a b : nat) : string :=
  string_of_list_ascii (firstn (b - a) (skipn a s)).

Definition search (icase : bool) (r : regex) (text : string) : option mresult :=
  let s := list_ascii_of_string text in
  search_from icase s r (length s) 0.

(** [match.group(n)]: [None] when the group did not participate. *)
Definition group (text : string) (x : mresult) (n : nat) : option string :=
  let s := list_ascii_of_string text in
  match n with
  | 0 => Some (slice s (m_start x) (m_end x))
  | _ =>
      match find (fun p => (fst p =? n)%nat) (m_caps x) with
      | Some (_, (a, b)) => Some (slice s a b)
      | None => None
      end
  end.

(** [pattern.findall(text)] for a pattern with [ngroups] groups
    (0 or 1): the whole matches, or group 1 of each match. *)
Fixpoint findall_from (icase : bool) (s : list ascii) (r : regex) (ngroups : nat)
         (fuel i : nat) : list string :=
  match fuel with
  | 0 => []
  | S f =>
      match search_from icase s r (length s - i) i with
      | None => []
      | Some x =>
          let item :=
            match ngroups with
            | 0 => slice s (m_start x) (m_end x)
            | _ => match find (fun p => (fst p =? 1)%nat) (m_caps x) with
                   | Some (_, (a, b)) => slice s a b
                   | None => ""
                   end
            end in
          let next := if (m_end x =? m_start x)%nat then S (m_end x) else m_end x in
          if (length s <? next)%nat then [item]
          else item :: findall_from icase s r ngroups f next
      end
  end.

Definition findall (icase : bool) (r : regex) (ngroups : nat) (text : string)
  : list string :=
  let s := list_ascii_of_string text in
  findall_from icase s r ngroups (S (length s)) 0.

(** Building blocks. *)
Fixpoint lit_l (l : list ascii) : regex :=
  match l with
  | [] => REps
  | [c] => RChar c
  | c :: r => RSeq (RChar c) (lit_l r)
  end.
Definition lit (w : string) : regex := lit_l (list_ascii_of_string w).

Fixpoint alts (rs : list regex) : regex :=
  match rs with
  | [] => REps
  | [r] => r
  | r :: rs' => RAlt r (alts rs')
  end.

Fixpoint seqs (rs : list regex) : regex :=
  match rs with
  | [] => REps
  | [r] => r
  | r :: rs' => RSeq r (seqs rs')
  end.

Definition plus (r : regex) : regex := RSeq r (RStar r).
Fixpoint rep (n : nat) (r : regex) : regex :=
  match n with 0 => REps | S n' => RSeq r (rep n' r) end.
(** greedy [r{0,n}] *)
Fixpoint upto (n : nat) (r : regex) : regex :=
  match n with 0 => REps | S n' => ROpt (RSeq r (upto n' r)) end.
(** greedy [r{m,n}] *)
Definition range (lo hi : nat) (r : regex) : regex := RSeq (rep lo r) (upto (hi - lo) r).

Definition digit : regex := RClass Py.is_digit.            (* \d *)
Definition space : regex := RClass Py.is_space.            (* \s *)

End Re.

(* ================================================================= *)
(** ** Python values and [json.loads]

    The values the agents exchange as dictionaries: [None], booleans,
    [int], [float] (as a rational), [str], [list] and [dict] (string keys,
    in insertion order, no duplicate key). *)

Module Json.
#[local] Set Warnings "-register-all".

Inductive pyval : Type :=
  | PNone
  | PBool (b : bool)
  | PInt (z : Z)
  | PFloat (q : Q)
  | PStr (s : string)
  | PList (l : list pyval)
  | PDict (kv : list (string * pyval)).

(** [d.get(k)] on the entries of a dict. *)
Fixpoint dict_get (kv : list (string * pyval)) (k : string) : option pyval :=
  match kv with
  | [] => None
  | (k', v) :: r => if String.eqb k k' then Some v else dict_get r k
  end.

(** [d[k] = v]: an existing key keeps its position, a new key is appended. *)
Fixpoint dict_set (kv : list (string * pyval)) (k : string) (v : pyval)
  : list (string * pyval) :=
  match kv with
  | [] => [(k, v)]
  | (k', v') :: r =>
      if String.eqb k k' then (k', v) :: r else (k', v') :: dict_set r k v
  end.

(** [d.get(k, default)] on a value that is a dict. *)
Definition get_or (v : pyval) (k : string) (default : pyval) : pyval :=
  match v with
  | PDict kv => match dict_get kv k with Some x => x | None => default end
  | _ => default
  end.

(** Python truthiness. *)
Definition truthy (v : pyval) : bool :=
  match v with
  | PNone => false
  | PBool b => b
  | PInt z => negb (z =? 0)%Z
  | PFloat q => negb (Qeq_bool q 0)
  | PStr s => negb (String.eqb s "")
  | PList l => match l with [] => false | _ => true end
  | PDict kv => match kv with [] => false | _ => true end
  end.

(** *** The JSON decoder

    RFC 8259 JSON as Python's [json.loads] reads it: whitespace is space,
    tab, line feed and carriage return; a number with a fraction or an
    exponent is a [float], any other number an [int]; a repeated object key
    keeps its first position and its last value; anything after the value
    but whitespace is an error.  Text is ASCII: a [\uXXXX] escape above
    0x7F, and Python's extensions [NaN] and [Infinity], are not accepted. *)

Local Open Scope nat_scope.

Definition ch (c : ascii) (d : ascii) : bool := (c =? d)%char.

Definition json_ws (c : ascii) : bool :=
  ch " " c || ch (ascii_of_nat 9) c || ch (ascii_of_nat 10) c || ch (ascii_of_nat 13) c.

Fixpoint skip_ws (l : list ascii) : list ascii :=
  match l with
  | c :: r => if json_ws c then skip_ws r else l
  | [] => []
  end.

Definition digit_val (c : ascii) : nat := nat_of_ascii c - 48.

Definition hex_val (c : ascii) : option nat :=
  let n := nat_of_ascii c in
  if Py.is_digit c then Some (n - 48)
  else if (97 <=? n) && (n <=? 102) then Some (n - 87)
  else if (65 <=? n) && (n <=? 70) then Some (n - 55)
  else None.

(** digits, most significant first: their value and the rest *)
Fixpoint digits_aux (acc : Z) (n : nat) (l : list ascii) : Z * nat * list ascii :=
  match l with
  | c :: r =>
      if Py.is_digit c
      then digits_aux (acc * 10 + Z.of_nat (digit_val c))%Z (S n) r
      else (acc, n, l)
  | [] => (acc, n, l)
  end.

(** A number: an optional minus, [0] or a digit run without leading zero,
    an optional fraction [.digits], an optional exponent [e] or [E] with
    an optional sign and digits. *)
Definition parse_number (l : list ascii) : option (pyval * list ascii) :=
  let '(neg, l1) := match l with
                    | c :: r => if ch "-" c then (true, r) else (false, l)
                    | [] => (false, l)
                    end in
  let int_part :=
    match l1 with
    | c :: r =>
        if ch "0" c then Some (0%Z, r)
        else if Py.is_digit c then
          let '(v, _, r') := digits_aux 0%Z 0 l1 in Some (v, r')
        else None
    | [] => None
    end in
  match int_part with
  | None => None
  | Some (iv, l2) =>
      let frac :=
        match l2 with
        | c :: r =>
            if ch "." c then
              let '(fv, nd, r') := digits_aux 0%Z 0 r in
              if nd =? 0 then None else Some (Some (fv, nd), r')
            else Some (None, l2)
        | [] => Some (None, l2)
        end in
      match frac with
      | None => None
      | Some (fr, l3) =>
          let expo :=
            match l3 with
            | c :: r =>
                if ch "e" c || ch "E" c then
                  let '(eneg, r1) :=
                    match r with
                    | d :: r' => if ch "-" d then (true, r')
                                 else if ch "+" d then (false, r') else (false, r)
                    | [] => (false, r)
                    end in
                  let '(ev, nd, r2) := digits_aux 0%Z 0 r1 in
                  if nd =? 0 then None
                  else Some (Some (if eneg then (- ev)%Z else ev), r2)
                else Some (None, l3)
            | [] => Some (None, l3)
            end in
          match expo with
          | None => None
          | Some (ex, l4) =>
              let sign := if neg then (-1)%Z else 1%Z in
              match fr, ex with
              | None, None => Some (PInt (sign * iv)%Z, l4)
              | _, _ =>
                  let '(mant, scale) :=
                    match fr with
                    | Some (fv, nd) => ((iv * 10 ^ Z.of_nat nd + fv)%Z, Z.of_nat nd)
                    | None => (iv, 0%Z)
                    end in
                  let e := (match ex with Some e => e | None => 0 end - scale)%Z in
                  let q := if (0 <=? e)%Z
                           then inject_Z (sign * mant * 10 ^ e)
                           else Qmake (sign * mant) (Z.to_pos (10 ^ (- e))) in
                  Some (PFloat q, l4)
              end
          end
      end
  end.

(** A string body after the opening quote. *)
Fixpoint parse_string_body (acc : list ascii) (l : list ascii)
  : option (string * list ascii) :=
  match l with
  | [] => None
  | c :: r =>
      if ch (ascii_of_nat 34) c then Some (string_of_list_ascii (rev acc), r)
      else if nat_of_ascii c <? 32 then None
      else if ch (ascii_of_nat 92) c then
        match r with
        | e :: r' =>
            if ch (ascii_of_nat 34) e || ch (ascii_of_nat 92) e || ch "/" e
            then parse_string_body (e :: acc) r'
            else if ch "b" e then parse_string_body (ascii_of_nat 8 :: acc) r'
            else if ch "f" e then parse_string_body (ascii_of_nat 12 :: acc) r'
            else if ch "n" e then parse_string_body (ascii_of_nat 10 :: acc) r'
            else if ch "r" e then parse_string_body (ascii_of_nat 13 :: acc) r'
            else if ch "t" e then parse_string_body (ascii_of_nat 9 :: acc) r'
            else if ch "u" e then
              match r' with
              | h1 :: h2 :: h3 :: h4 :: r'' =>
                  match hex_val h1, hex_val h2, hex_val h3, hex_val h4 with
                  | Some a, Some b, Some c', Some d =>
                      let v := ((a * 16 + b) * 16 + c') * 16 + d in
                      if v <? 128 then parse_string_body (ascii_of_nat v :: acc) r''
                      else None
                  | _, _, _, _ => None
                  end
              | _ => None
              end
            else None
        | [] => None
        end
      else parse_string_body (c :: acc) r
  end.

Fixpoint parse_value (fuel : nat) (l0 : list ascii) : option (pyval * list ascii) :=
  match fuel with
  | 0 => None
  | S f =>
      let l := skip_ws l0 in
      match l with
      | [] => None
      | c :: r =>
          if ch (ascii_of_nat 34) c then
            match parse_string_body [] r with
            | Some (s, r') => Some (PStr s, r')
            | None => None
            end
          else if ch "[" c then
            match skip_ws r with
            | d :: r' => if ch "]" d then Some (PList [], r') else
              (fix elems (g : nat) (r1 : list ascii) (acc : list pyval) :=
                 match g with
                 | 0 => None
                 | S g' =>
                     match parse_value f r1 with
                     | None => None
                     | Some (v, r2) =>
                         match skip_ws r2 with
                         | e :: r3 =>
                             if ch "," e then elems g' r3 (v :: acc)
                             else if ch "]" e then Some (PList (rev (v :: acc)), r3)
                             else None
                         | [] => None
                         end
                     end
                 end) (length r) r []
            | [] => None
            end
          else if ch "{" c then
            match skip_ws r with
            | d :: r' => if ch "}" d then Some (PDict [], r') else
              (fix members (g : nat) (r1 : list ascii) (acc : list (string * pyval)) :=
                 match g with
                 | 0 => None
                 | S g' =>
                     match skip_ws r1 with
                     | q :: r2 =>
                         if ch (ascii_of_nat 34) q then
                           match parse_string_body [] r2 with
                           | None => None
                           | Some (k, r3) =>
                               match skip_ws r3 with
                               | col :: r4 =>
                                   if ch ":" col then
                                     match parse_value f r4 with
                                     | None => None
                                     | Some (v, r5) =>
                                         match skip_ws r5 with
                                         | e :: r6 =>
                                             if ch "," e
                                             then members g' r6 (dict_set acc k v)
                                             else if ch "}" e
                                             then Some (PDict (dict_set acc k v), r6)
                                             else None
                                         | [] => None
                                         end
                                     end
                                   else None
                               | [] => None
                               end
                           end
                         else None
                     | [] => None
                     end
                 end) (length r) r []
            | [] => None
            end
          else if Py.prefixb (list_ascii_of_string "true") l
          then Some (PBool true, skipn 4 l)
          else if Py.prefixb (list_ascii_of_string "false") l
          then Some (PBool false, skipn 5 l)
          else if Py.prefixb (list_ascii_of_string "null") l
          then Some (PNone, skipn 4 l)
          else parse_number l
      end
  end.

(** [json.loads(text)]: [None] is a [JSONDecodeError]. *)
Definition loads (text : string) : option pyval :=
  let l := list_ascii_of_string text in
  match parse_value (S (length l)) l with
  | Some (v, rest) => match skip_ws rest with [] => Some v | _ => None end
  | None => None
  end.

End Json.
Import Json.

(* ================================================================= *)
(** ** Raised exceptions

    Code that may raise returns [Ok v] or [Exc name]; [Exc] carries the
    Python exception class. *)

Inductive res (A : Type) : Type :=
  | Ok (a : A)
  | Exc (e : string).
Arguments Ok {A} a.
Arguments Exc {A} e.

Definition res_bind {A B} (x : res A) (f : A -> res B) : res B :=
  match x with Ok a => f a | Exc e => Exc e end.
Notation "'let?' x ':=' c 'in' f" := (res_bind c (fun x => f))
  (at level 200, x name, c at level 100, f at level 200).

(** [str(n)] and [f"{q:.Nf}"] (the rational is rounded half up; Python
    rounds the nearest binary float). *)
Definition str_Z (z : Z) : string := NilZero.string_of_int (Z.to_int z).
Definition str_nat (n : nat) : string := str_Z (Z.of_nat n).

Definition fmt_fixed (digits : nat) (q : Q) : string :=
  let scale := (10 ^ Z.of_nat digits)%Z in
  let n := Qnum q in let d := Zpos (Qden q) in
  let a := ((Z.abs n * scale * 2 + d) / (2 * d))%Z in
  let sign := if (n <? 0)%Z && negb (a =? 0)%Z then "-" else "" in
  let ip := (a / scale)%Z in let fp := (a mod scale)%Z in
  let fs := str_Z fp in
  let pad := string_of_list_ascii (repeat "0"%char (digits - String.length fs)) in
  match digits with
  | O => sign ++ str_Z ip
  | _ => sign ++ str_Z ip ++ "." ++ pad ++ fs
  end.

(** [repr] of a threshold: the fewest fraction digits (one to six)
    that print it exactly. *)
Definition repr_float (q : Q) : string :=
  let exact (n : nat) :=
    ((Qnum q * 10 ^ Z.of_nat n) mod Zpos (Qden q) =? 0)%Z in
  let fix go (n : nat) (k : nat) :=
    match k with
    | O => fmt_fixed n q
    | S k' => if exact n then fmt_fixed n q else go (S n) k'
    end in
  go 1%nat 5%nat.

(* ================================================================= *)
(** ** [app/config.py] *)

Definition CONFIDENCE_THRESHOLD : Q := 40 # 100.
Definition MAX_QUOTE_WORDS : nat := 20.
Definition STRICT_AMOUNT_VERIFICATION : bool := false.
Definition RETRIEVAL_TOP_K : nat := 4.

Definition BILLING_ACCOUNT_SPECIFIC := "billing_account_specific".
Definition BILLING_GENERAL := "billing_general".
Definition SALES_GENERAL := "sales_general".

(* ================================================================= *)
(** ** [app/utils/guardrails.py] *)

Module Guardrails.

Record ValidationResult := {
  is_valid : bool;
  reason : string;
  details : pyval  (* [PNone] when the source leaves it at [None] *)
}.

(** [re.compile(r'\$[\d,]+(?:\.\d{2})?')] *)
Definition DOLLAR_PATTERN : Re.regex :=
  Re.seqs [Re.RChar "$";
           Re.plus (Re.RClass (fun c => Py.is_digit c || (c =? ",")%char));
           Re.ROpt (Re.RSeq (Re.RChar ".") (Re.rep 2 Re.digit))].

Definition findall_dollars (text : string) : list string :=
  Re.findall false DOLLAR_PATTERN 0 text.

(** [findall] on a value: a [TypeError] unless it is a [str]. *)
Definition findall_dollars_v (v : pyval) : res (list string) :=
  match v with
  | PStr t => Ok (findall_dollars t)
  | _ => Exc "TypeError"
  end.

(** [key in v] *)
Definition py_in (key : string) (v : pyval) : res bool :=
  match v with
  | PDict kv => Ok (match dict_get kv key with Some _ => true | None => false end)
  | PList l => Ok (existsb (fun x => match x with
                                     | PStr s => String.eqb s key
                                     | _ => false end) l)
  | PStr s => Ok (Py.contains key s)
  | _ => Exc "TypeError"
  end.

(** [[f for f in fields if f not in v]] *)
Fixpoint missing_fields (fields : list string) (v : pyval) : res (list string) :=
  match fields with
  | [] => Ok []
  | f :: fs =>
      let? b := py_in f v in
      let? rest := missing_fields fs v in
      Ok (if b then rest else f :: rest)
  end.

(** [type(v).__name__] *)
Definition type_name (v : pyval) : string :=
  match v with
  | PNone => "NoneType" | PBool _ => "bool" | PInt _ => "int"
  | PFloat _ => "float" | PStr _ => "str" | PList _ => "list" | PDict _ => "dict"
  end.

(** [v.get(k, default)]: an [AttributeError] unless [v] is a dict. *)
Definition py_get (v : pyval) (k : string) (default : pyval) : res pyval :=
  match v with
  | PDict kv => Ok (match dict_get kv k with Some x => x | None => default end)
  | _ => Exc "AttributeError"
  end.

Definition strs (l : list string) : pyval := PList (map PStr l).

Definition check_sales_agent_response (response query_intent : string)
  : ValidationResult :=
  let dollar_amounts := findall_dollars response in
  if String.eqb query_intent BILLING_ACCOUNT_SPECIFIC
     && negb (match dollar_amounts with [] => true | _ => false end)
  then {| is_valid := false;
          reason := "SalesAgent cannot provide specific billing amounts. Routing to BillingAgent.";
          details := PDict [("blocked_amounts", strs dollar_amounts)] |}
  else {| is_valid := true; reason := "Response is appropriate for SalesAgent.";
          details := PNone |}.

Definition required_fields := ["answer"; "citations"; "top_score"].
Definition required_citation_fields := ["doc_id"; "chunk_id"; "quote"].

Fixpoint check_citations (i : nat) (cs : list pyval) : res (option ValidationResult) :=
  match cs with
  | [] => Ok None
  | c :: rest =>
      let? missing_cite := missing_fields required_citation_fields c in
      match missing_cite with
      | [] => check_citations (S i) rest
      | _ => Ok (Some {| is_valid := false;
                         reason := "Citation " ++ str_nat i ++ " missing fields: "
                                   ++ Py.join ", " missing_cite;
                         details := PDict [("citation_index", PInt (Z.of_nat i));
                                           ("missing", strs missing_cite)] |})
      end
  end.

Definition validate_billing_response_structure (response_data : pyval)
  : res ValidationResult :=
  let? missing := missing_fields required_fields response_data in
  match missing with
  | _ :: _ =>
      Ok {| is_valid := false;
            reason := "Missing required fields: " ++ Py.join ", " missing;
            details := PDict [("missing_fields", strs missing)] |}
  | [] =>
      let? citations := py_get response_data "citations" (PList []) in
      match citations with
      | PList cs =>
          let? bad := check_citations 0 cs in
          match bad with
          | Some v => Ok v
          | None => Ok {| is_valid := true; reason := "Response structure is valid.";
                          details := PNone |}
          end
      | _ => Ok {| is_valid := false; reason := "Citations must be a list";
                   details := PDict [("citations_type", PStr (type_name citations))] |}
      end
  end.

(** [a < b] on floats. *)
Definition Qlt_bool (a b : Q) : bool := negb (Qle_bool b a).

(** [top_score < threshold] and [f"{top_score:.2f}"]: numbers only. *)
Definition num_of (v : pyval) : res Q :=
  match v with
  | PInt z => Ok (inject_Z z)
  | PFloat q => Ok q
  | PBool b => Ok (if b then 1 else 0)
  | _ => Exc "TypeError"
  end.

(** [len(v)] *)
Definition py_len (v : pyval) : res nat :=
  match v with
  | PList l => Ok (length l)
  | PDict kv => Ok (length kv)
  | PStr s => Ok (String.length s)
  | _ => Exc "TypeError"
  end.

(** Iterating a value: a list's items, a dict's keys, a string's letters. *)
Definition py_iter (v : pyval) : res (list pyval) :=
  match v with
  | PList l => Ok l
  | PDict kv => Ok (map (fun p => PStr (fst p)) kv)
  | PStr s => Ok (map (fun c => PStr (String c EmptyString)) (list_ascii_of_string s))
  | _ => Exc "TypeError"
  end.

(** Sets of strings as duplicate-free lists in first-seen order. *)
Definition dedup (l : list string) : list string :=
  fold_left (fun acc x => if existsb (String.eqb x) acc then acc else (acc ++ [x])%list) l [].
Definition set_diff (a b : list string) : list string :=
  filter (fun x => negb (existsb (String.eqb x) b)) a.

Fixpoint quotes_amounts (cs : list pyval) : res (list string) :=
  match cs with
  | [] => Ok []
  | c :: rest =>
      let? q := py_get c "quote" (PStr "") in
      let? found := findall_dollars_v q in
      let? more := quotes_amounts rest in
      Ok (found ++ more)%list
  end.

Definition clarifying_low_confidence : list string :=
  ["Can you provide your account number?";
   "Which billing period are you asking about?";
   "Can you provide more details about your question?"].

(** [GuardrailsChecker(confidence_threshold).manager_validate_response];
    [strict] is [STRICT_AMOUNT_VERIFICATION]. *)
Definition manager_validate_response (confidence_threshold : Q) (strict : bool)
           (answer citations top_score : pyval) : res ValidationResult :=
  (* CHECK 1 *)
  if negb (truthy citations) then
    Ok {| is_valid := false;
          reason := "No citations provided. Cannot verify answer without evidence.";
          details := PDict [("check", PStr "citations_present");
                            ("needed", PStr "At least one citation required")] |}
  else
  (* CHECK 2 *)
  let? score := num_of top_score in
  if Qlt_bool score confidence_threshold then
    Ok {| is_valid := false;
          reason := "Confidence too low (" ++ fmt_fixed 2 score ++ " < "
                    ++ repr_float confidence_threshold
                    ++ "). Please provide more specific information.";
          details := PDict [("check", PStr "confidence_threshold");
                            ("score", top_score);
                            ("threshold", PFloat confidence_threshold);
                            ("clarifying_questions", strs clarifying_low_confidence)] |}
  else
  (* CHECK 3 *)
  let? check3 :=
    if strict then
      let? found := findall_dollars_v answer in
      match dedup found with
      | [] => Ok None
      | dollar_in_answer =>
          let? cs := py_iter citations in
          let? in_quotes := quotes_amounts cs in
          let dollar_in_quotes := dedup in_quotes in
          match set_diff dollar_in_answer dollar_in_quotes with
          | [] => Ok None
          | unverified =>
              Ok (Some {| is_valid := false;
                          reason := "Dollar amounts " ++ Py.join ", " unverified
                                    ++ " in answer not found in source documents.";
                          details := PDict [("check", PStr "amounts_verified");
                                            ("unverified_amounts", strs unverified);
                                            ("verified_amounts", strs dollar_in_quotes)] |})
          end
      end
    else Ok None in
  match check3 with
  | Some v => Ok v
  | None =>
      let? found := findall_dollars_v answer in
      let dollar_in_answer := dedup found in
      let? n := py_len citations in
      Ok {| is_valid := true;
            reason := "Response approved. Citations present, confidence sufficient.";
            details := PDict [("citations_count", PInt (Z.of_nat n));
                              ("confidence_score", top_score);
                              ("amounts_in_answer", strs dollar_in_answer)] |}
  end.

(** The value of [details.get("check")]. *)
Definition check_tag (v : ValidationResult) : pyval := get_or (details v) "check" PNone.

(** [xs[:n]] on a list: a negative [n] counts from the end. *)
Definition py_head {A} (n : Z) (l : list A) : list A :=
  if (0 <=? n)%Z then firstn (Z.to_nat n) l
  else firstn (length l - Z.to_nat (- n)) l.

(** [truncate_quote(quote, max_words)] *)
Definition truncate_quote (quote : string) (max_words : Z) : string :=
  let words := Py.split quote in
  if (Z.of_nat (length words) <=? max_words)%Z then quote
  else Py.join " " (py_head max_words words) ++ "...".

Definition question_templates : list (string * string) :=
  [("account", "Can you provide your account number or phone number?");
   ("period", "Which billing period are you asking about (e.g., January 2026)?");
   ("charge", "Can you specify which charge you have questions about?");
   ("customer", "Can you confirm your name or account email?")].

(** [question_templates[info.lower()]] if present, else the generic
    f-string. *)
Definition question_for (info : string) : string :=
  match find (fun p => String.eqb (fst p) (Py.lower info)) question_templates with
  | Some (_, q) => q
  | None => "Can you provide more information about " ++ info ++ "?"
  end.

(** [generate_clarifying_questions(missing_info)] *)
Definition generate_clarifying_questions (missing_info : list string) : list string :=
  let questions := map question_for missing_info in
  match questions with
  | [] => ["Can you provide more details about your question?"]
  | _ => questions
  end.

End Guardrails.

(* ================================================================= *)
(** ** [app/rag/retriever.py]: the pure parts *)

Module Retriever.

(** A match returned by the vector index: its metadata fields (absent
    when the metadata lacks them) and its score. *)
Record index_match := {
  md_doc_id : option string;
  md_chunk_id : option Z;
  md_text : option string;
  m_score : Q
}.

(** A retrieved chunk. *)
Record chunk := {
  doc_id : string;
  chunk_id : Z;
  text : string;
  score : Q
}.

(** Step 3 of [retrieve]: matches to chunks, with the metadata defaults. *)
Definition chunk_of_match (mt : index_match) : chunk :=
  {| doc_id := match md_doc_id mt with Some d => d | None => "unknown" end;
     chunk_id := match md_chunk_id mt with Some c => c | None => 0%Z end;
     text := match md_text mt with Some t => t | None => "" end;
     score := m_score mt |}.

(** [retrieve] once the index has answered. *)
Definition chunks_of_matches (matches : list index_match) : list chunk * Q :=
  match matches with
  | [] => ([], 0)
  | m0 :: _ => (map chunk_of_match matches, m_score m0)
  end.

Definition format_context_for_llm (chunks : list chunk) : string :=
  match chunks with
  | [] => "No relevant documents found."
  | _ =>
      let nl := String (ascii_of_nat 10) EmptyString in
      let fix parts (i : nat) (cs : list chunk) : list string :=
        match cs with
        | [] => []
        | c :: r =>
            (nl ++ "### Source " ++ str_nat i ++ nl
             ++ "- **Document ID**: " ++ doc_id c ++ nl
             ++ "- **Chunk ID**: " ++ str_Z (chunk_id c) ++ nl
             ++ "- **Relevance Score**: " ++ fmt_fixed 3 (score c) ++ nl ++ nl
             ++ "**Content**:" ++ nl ++ text c ++ nl ++ nl ++ "---" ++ nl)
              :: parts (S i) r
        end in
      Py.join nl (("## Retrieved Documents" ++ nl) :: parts 1%nat chunks)
  end.

(** The quote of a chunk: its first 20 words, with an ellipsis when cut. *)
Definition quote_of (t : string) : string :=
  let words := Py.split t in
  Py.join " " (firstn 20 words) ++ (if (20 <? length words)%nat then "..." else "").

Definition citation_of_chunk (c : chunk) : pyval :=
  PDict [("doc_id", PStr (doc_id c));
         ("chunk_id", PInt (chunk_id c));
         ("quote", PStr (quote_of (text c)))].

Definition create_citations_from_chunks (chunks : list chunk) (answer : string)
  : list pyval :=
  map citation_of_chunk chunks.

End Retriever.
Import Retriever.

(* ================================================================= *)
(** ** [app/memory/session_store.py]

    The SQLite database is two tables held as lists of rows in insertion
    order; the [AUTOINCREMENT] counter of [conversation_turns] is explicit.
    Timestamps ([created_at], [last_activity], [timestamp]) are not
    modelled: no claim reads them. *)

Module Sessions.

Record ConversationTurn := { role : string; content : string }.

Record SessionData := {
  session_id : string;
  account_id : option string;
  customer_name : option string;
  billing_period : option string;
  current_topic : option string;
  last_query : option string;
  last_response : option string;
  conversation_history : list ConversationTurn;
  max_history : nat
}.

(** Python truthiness of an [Optional[str]]. *)
Definition set_field (o : option string) : option string :=
  match o with Some v => if String.eqb v "" then None else Some v | None => None end.

(** [l[-n:]] for a Python int [n]: [n = 0] gives the whole list, a
    negative [n] drops the first [-n] items. *)
Definition py_tail {A} (n : Z) (l : list A) : list A :=
  if (0 <? n)%Z then skipn (length l - Z.to_nat n) l else skipn (Z.to_nat (- n)) l.

(** [SessionData.add_turn] *)
Definition add_turn (sd : SessionData) (r c : string) : SessionData :=
  let h := (conversation_history sd ++ [{| role := r; content := c |}])%list in
  let h' := if (max_history sd <? length h)%nat
            then py_tail (Z.of_nat (max_history sd)) h else h in
  {| session_id := session_id sd; account_id := account_id sd;
     customer_name := customer_name sd; billing_period := billing_period sd;
     current_topic := current_topic sd; last_query := last_query sd;
     last_response := last_response sd; conversation_history := h';
     max_history := max_history sd |}.

(** [SessionData.get_context_summary] *)
Definition get_context_summary (sd : SessionData) : string :=
  let part (label : string) (o : option string) :=
    match set_field o with Some v => [label ++ v] | None => [] end in
  let parts := (part "Account: " (account_id sd)
               ++ part "Customer: " (customer_name sd)
               ++ part "Discussing: " (billing_period sd)
               ++ part "Topic: " (current_topic sd))%list in
  match parts with
  | [] => ""
  | _ => "Session Context: " ++ Py.join " | " parts
  end.

(** [SessionData.get_conversation_for_prompt(last_n)] *)
(** One line of [get_conversation_for_prompt]. *)
Definition prompt_line (t : ConversationTurn) : string :=
  let prefix := if String.eqb (role t) "user" then "User" else "Assistant" in
  let c := if (200 <? String.length (content t))%nat
           then substring 0 200 (content t) ++ "..." else content t in
  "  " ++ prefix ++ ": " ++ c.

Definition get_conversation_for_prompt (sd : SessionData) (last_n : Z) : string :=
  match conversation_history sd with
  | [] => ""
  | hist =>
      let recent := py_tail last_n hist in
      Py.join (String (ascii_of_nat 10) EmptyString)
              ("Recent conversation:" :: map prompt_line recent)
  end.

(** A row of the [sessions] table. *)
Record session_row := {
  r_session_id : string;
  r_account_id : option string;
  r_customer_name : option string;
  r_billing_period : option string;
  r_current_topic : option string;
  r_last_query : option string;
  r_last_response : option string;
  r_last_doc_ids : option string
}.

(** A row of the [conversation_turns] table. *)
Record turn_row := {
  t_id : Z;
  t_session_id : string;
  t_role : string;
  t_content : string
}.

Record store := {
  sessions : list session_row;
  turns : list turn_row;
  next_turn_id : Z     (* the AUTOINCREMENT counter *)
}.

Definition empty_store : store := {| sessions := []; turns := []; next_turn_id := 1 |}.

Definition find_session (st : store) (sid : string) : option session_row :=
  find (fun r => String.eqb (r_session_id r) sid) (sessions st).

(** [ORDER BY id DESC]: insertion sort on the id. *)
Fixpoint insert_desc (t : turn_row) (l : list turn_row) : list turn_row :=
  match l with
  | [] => [t]
  | u :: r => if (t_id u <? t_id t)%Z then t :: l else u :: insert_desc t r
  end.
Fixpoint sort_desc (l : list turn_row) : list turn_row :=
  match l with
  | [] => []
  | t :: r => insert_desc t (sort_desc r)
  end.

Definition turns_of (st : store) (sid : string) : list turn_row :=
  filter (fun t => String.eqb (t_session_id t) sid) (turns st).

(** [SELECT ... WHERE session_id = ? ORDER BY id DESC LIMIT 10] *)
Definition last_ten (st : store) (sid : string) : list turn_row :=
  firstn 10 (sort_desc (turns_of st sid)).

(** [_row_to_session] *)
Definition row_to_session (st : store) (row : session_row) : SessionData :=
  {| session_id := r_session_id row;
     account_id := r_account_id row; customer_name := r_customer_name row;
     billing_period := r_billing_period row; current_topic := r_current_topic row;
     last_query := r_last_query row; last_response := r_last_response row;
     conversation_history :=
       map (fun t => {| role := t_role t; content := t_content t |})
           (rev (last_ten st (r_session_id row)));
     max_history := 10 |}.

(** [SessionStore.get] *)
Definition get (st : store) (sid : string) : option SessionData :=
  match find_session st sid with
  | Some row => Some (row_to_session st row)
  | None => None
  end.

(** [SessionStore.create] with a given id: the [INSERT] fails on a
    duplicate primary key. *)
Definition new_row (sid : string) : session_row :=
  {| r_session_id := sid; r_account_id := None; r_customer_name := None;
     r_billing_period := None; r_current_topic := None; r_last_query := None;
     r_last_response := None; r_last_doc_ids := Some "[]" |}.

Definition new_session (sid : string) : SessionData :=
  {| session_id := sid; account_id := None; customer_name := None;
     billing_period := None; current_topic := None; last_query := None;
     last_response := None; conversation_history := []; max_history := 10 |}.

Definition create (st : store) (sid : string) : res (SessionData * store) :=
  match find_session st sid with
  | Some _ => Exc "IntegrityError"
  | None =>
      Ok (new_session sid,
          {| sessions := (sessions st ++ [new_row sid])%list;
             turns := turns st; next_turn_id := next_turn_id st |})
  end.

(** [SessionStore.get_or_create] *)
Definition get_or_create (st : store) (sid : string) : res (SessionData * store) :=
  match get st sid with
  | Some sd => Ok (sd, st)
  | None => create st sid
  end.

(** The columns [update] accepts. *)
Inductive field := F_account_id | F_customer_name | F_billing_period
                 | F_current_topic | F_last_query | F_last_response.

Definition set_column (row : session_row) (f : field) (v : option string) : session_row :=
  {| r_session_id := r_session_id row;
     r_account_id := match f with F_account_id => v | _ => r_account_id row end;
     r_customer_name := match f with F_customer_name => v | _ => r_customer_name row end;
     r_billing_period := match f with F_billing_period => v | _ => r_billing_period row end;
     r_current_topic := match f with F_current_topic => v | _ => r_current_topic row end;
     r_last_query := match f with F_last_query => v | _ => r_last_query row end;
     r_last_response := match f with F_last_response => v | _ => r_last_response row end;
     r_last_doc_ids := r_last_doc_ids row |}.

Definition apply_updates (row : session_row) (ups : list (field * option string))
  : session_row :=
  fold_left (fun r p => set_column r (fst p) (snd p)) ups row.

(** [SessionStore.update(session_id, **kwargs)]: the keyword arguments are
    already restricted to the allowed columns. *)
Definition update (st : store) (sid : string) (kwargs : list (field * option string))
  : option SessionData * store :=
  match kwargs with
  | [] => (get st sid, st)
  | _ =>
      match find_session st sid with
      | None => (None, st)   (* rowcount = 0 *)
      | Some _ =>
          let st' := {| sessions :=
                          map (fun r => if String.eqb (r_session_id r) sid
                                        then apply_updates r kwargs else r)
                              (sessions st);
                        turns := turns st; next_turn_id := next_turn_id st |} in
          (get st' sid, st')
      end
  end.

(** [SessionStore.add_conversation_turn] *)
Definition add_conversation_turn (st : store) (sid r c : string)
  : option SessionData * store :=
  match find_session st sid with
  | None => (None, st)
  | Some _ =>
      let row := {| t_id := next_turn_id st; t_session_id := sid;
                    t_role := r; t_content := c |} in
      let inserted := {| sessions := sessions st;
                         turns := (turns st ++ [row])%list;
                         next_turn_id := next_turn_id st + 1 |} in
      let keep := map t_id (last_ten inserted sid) in
      let st' := {| sessions := sessions inserted;
                    (* DELETE ... WHERE id NOT IN (keep) AND session_id = ? *)
                    turns := filter (fun t => existsb (Z.eqb (t_id t)) keep
                                              || negb (String.eqb (t_session_id t) sid))
                                    (turns inserted);
                    next_turn_id := next_turn_id inserted |} in
      (get st' sid, st')
  end.

(** [SessionStore.delete]: the session's turns, then the session row;
    [True] when a session row was deleted. *)
Definition delete (st : store) (sid : string) : bool * store :=
  let turns' := filter (fun t => negb (String.eqb (t_session_id t) sid)) (turns st) in
  let sessions' := filter (fun r => negb (String.eqb (r_session_id r) sid)) (sessions st) in
  ((length sessions' <? length (sessions st))%nat,
   {| sessions := sessions'; turns := turns'; next_turn_id := next_turn_id st |}).

End Sessions.

(* ================================================================= *)
(** ** [app/memory/entity_extractor.py] *)

Module Extractor.
Import Re.

Record ExtractedEntities := {
  e_account_id : option string;
  e_customer_name : option string;
  e_billing_period : option string;
  e_dollar_amounts : list string;
  e_topic : option string
}.

Definition upper_or_digit (c : ascii) : bool := Py.is_upper c || Py.is_digit c.
Definition upper_digit_dash (c : ascii) : bool := upper_or_digit c || (c =? "-")%char.

(** [ACCOUNT_PATTERNS], compiled with [re.IGNORECASE]. *)
Definition ACCOUNT_PATTERNS : list regex :=
  [ (* \b(ACC-[A-Z0-9]+-[A-Z0-9]+)\b *)
    seqs [RWordB;
          RGroup 1 (seqs [lit "ACC-"; plus (RClass upper_or_digit); RChar "-";
                          plus (RClass upper_or_digit)]);
          RWordB];
    (* \b(ACC-\d{9,12})\b *)
    seqs [RWordB; RGroup 1 (RSeq (lit "ACC-") (range 9 12 digit)); RWordB];
    (* \baccount\s*(?:number|#|id)?:?\s*([A-Z0-9-]+)\b *)
    seqs [RWordB; lit "account"; RStar space;
          ROpt (alts [lit "number"; RChar "#"; lit "id"]);
          ROpt (RChar ":"); RStar space;
          RGroup 1 (plus (RClass upper_digit_dash)); RWordB];
    (* \baccount\s+is\s+([A-Z0-9-]+)\b *)
    seqs [RWordB; lit "account"; plus space; lit "is"; plus space;
          RGroup 1 (plus (RClass upper_digit_dash)); RWordB] ].

Definition name_word : regex := RSeq (RClass Py.is_upper) (plus (RClass Py.is_lower)).

(** [NAME_PATTERNS], compiled with [re.IGNORECASE]. *)
Definition NAME_PATTERNS : list regex :=
  [ (* (?:I'm|I am|my name is|this is)\s+([A-Z][a-z]+) *)
    seqs [alts [lit "I'm"; lit "I am"; lit "my name is"; lit "this is"];
          plus space; RGroup 1 name_word];
    (* ^([A-Z][a-z]+)\s+here *)
    seqs [RBol; RGroup 1 name_word; plus space; lit "here"] ].

Definition MONTHS : list string :=
  ["January"; "February"; "March"; "April"; "May"; "June"; "July"; "August";
   "September"; "October"; "November"; "December"].
Definition MONTH_ABBREVS : list string :=
  ["Jan"; "Feb"; "Mar"; "Apr"; "Jun"; "Jul"; "Aug"; "Sep"; "Oct"; "Nov"; "Dec"].

(** [PERIOD_PATTERNS], compiled with [re.IGNORECASE], with their number
    of groups. *)
Definition PERIOD_PATTERNS : list (regex * nat) :=
  [ (seqs [RWordB; RGroup 1 (alts (map lit (MONTHS ++ MONTH_ABBREVS)%list));
           plus space; RGroup 2 (rep 4 digit); RWordB], 2%nat);
    (seqs [RWordB; RGroup 1 (alts (map lit MONTHS)); plus space; lit "bill"; RWordB],
     1%nat);
    (seqs [RWordB;
           RGroup 1 (alts (map lit ["this month"; "last month"; "current month";
                                    "previous month"]));
           RWordB], 1%nat) ].

(** [DOLLAR_PATTERN = r'\$([0-9]+(?:\.[0-9]{2})?)'], one group. *)
Definition DOLLAR_PATTERN : regex :=
  seqs [RChar "$"; RGroup 1 (RSeq (plus digit) (ROpt (RSeq (RChar ".") (rep 2 digit))))].

Definition TOPIC_KEYWORDS : list (string * list string) :=
  [("billing", ["bill"; "invoice"; "charge"; "payment"; "amount"; "due"; "balance"]);
   ("plans", ["plan"; "upgrade"; "downgrade"; "package"; "subscription"]);
   ("dispute", ["dispute"; "wrong"; "incorrect"; "error"; "overcharge"; "refund"]);
   ("late_fee", ["late"; "fee"; "penalty"; "overdue"]);
   ("support", ["help"; "support"; "issue"; "problem"; "question"])].

(** The first pattern that matches, and its match. *)
Fixpoint first_search (pats : list regex) (text : string) : option mresult :=
  match pats with
  | [] => None
  | p :: ps => match search true p text with
               | Some x => Some x
               | None => first_search ps text
               end
  end.

Definition extract_account_id (text : string) : option string :=
  match first_search ACCOUNT_PATTERNS text with
  | Some x => option_map Py.upper (group text x 1)
  | None => None
  end.

Definition extract_name (text : string) : option string :=
  match first_search NAME_PATTERNS text with
  | Some x => option_map Py.title (group text x 1)
  | None => None
  end.

Fixpoint extract_period_from (pats : list (regex * nat)) (text : string) : option string :=
  match pats with
  | [] => None
  | (p, ngroups) :: ps =>
      match search true p text with
      | Some x =>
          let g1 := match group text x 1 with Some g => g | None => "" end in
          match ngroups, group text x 2 with
          | S (S _), Some g2 =>
              if String.eqb g2 "" then group text x 0 else Some (g1 ++ " " ++ g2)
          | _, _ => group text x 0
          end
      | None => extract_period_from ps text
      end
  end.

Definition extract_billing_period (text : string) : option string :=
  extract_period_from PERIOD_PATTERNS text.

Definition extract_dollar_amounts (text : string) : list string :=
  map (fun m => "$" ++ m) (findall false DOLLAR_PATTERN 1 text).

(** The number of keywords of a topic occurring in the lowered text. *)
Definition keyword_score (kws : list string) (text_lower : string) : nat :=
  length (filter (fun kw => Py.contains kw text_lower) kws).

(** [topic_scores]: the topics with a positive score, in table order. *)
Definition topic_scores (text : string) : list (string * nat) :=
  let text_lower := Py.lower text in
  filter (fun p => (0 <? snd p)%nat)
         (map (fun p => (fst p, keyword_score (snd p) text_lower)) TOPIC_KEYWORDS).

(** [max(d, key=d.get)]: the first key whose value no later key exceeds. *)
Fixpoint py_max_key (best : string * nat) (l : list (string * nat)) : string :=
  match l with
  | [] => fst best
  | p :: r => if (snd best <? snd p)%nat then py_max_key p r else py_max_key best r
  end.

Definition extract_topic (text : string) : option string :=
  match topic_scores text with
  | [] => None
  | p :: r => Some (py_max_key p r)
  end.

Definition extract (text : string) : ExtractedEntities :=
  {| e_account_id := extract_account_id text;
     e_customer_name := extract_name text;
     e_billing_period := extract_billing_period text;
     e_dollar_amounts := extract_dollar_amounts text;
     e_topic := extract_topic text |}.

Definition is_some {A} (o : option A) : bool := match o with Some _ => true | None => false end.

Definition has_entities (e : ExtractedEntities) : bool :=
  is_some (Sessions.set_field (e_account_id e)) || is_some (Sessions.set_field (e_customer_name e))
  || is_some (Sessions.set_field (e_billing_period e))
  || negb (match e_dollar_amounts e with [] => true | _ => false end)
  || is_some (Sessions.set_field (e_topic e)).

(** The [updates] dict of [extract_and_update_session]: the truthy
    extracted values, under their column names. *)
Definition updates_of (e : ExtractedEntities) : list (Sessions.field * option string) :=
  let one f o := match Sessions.set_field o with Some v => [(f, Some v)] | None => [] end in
  (one Sessions.F_account_id (e_account_id e)
   ++ one Sessions.F_customer_name (e_customer_name e)
   ++ one Sessions.F_billing_period (e_billing_period e)
   ++ one Sessions.F_current_topic (e_topic e))%list.

Definition extract_and_update_session (text sid : string) (st : Sessions.store)
  : ExtractedEntities * Sessions.store :=
  let entities := extract text in
  let updates := updates_of entities in
  match updates with
  | [] => (entities, st)
  | _ => (entities, snd (Sessions.update st sid updates))
  end.

End Extractor.

(* ================================================================= *)
(** ** [str()] and [repr()] of values, as f-strings print them *)

Module Show.

Definition sq := String (ascii_of_nat 39) EmptyString.   (* ' *)

Fixpoint repr (v : pyval) : string :=
  match v with
  | PNone => "None"
  | PBool b => if b then "True" else "False"
  | PInt z => str_Z z
  | PFloat q => repr_float q
  | PStr s => sq ++ s ++ sq
  | PList l => "[" ++ Py.join ", " (map repr l) ++ "]"
  | PDict kv =>
      "{" ++ Py.join ", " (map (fun p => sq ++ fst p ++ sq ++ ": " ++ repr (snd p)) kv)
      ++ "}"
  end.

Definition str (v : pyval) : string :=
  match v with PStr s => s | _ => repr v end.

(** [v[:n]] on a [str] or a [list]. *)
Definition slice_to (n : nat) (v : pyval) : res pyval :=
  match v with
  | PStr s => Ok (PStr (substring 0 n s))
  | PList l => Ok (PList (firstn n l))
  | _ => Exc "TypeError"
  end.

(** Text given by its UTF-8 bytes. *)
Definition bytes (l : list nat) : string := string_of_list_ascii (map ascii_of_nat l).

Definition nl : string := String (ascii_of_nat 10) EmptyString.

End Show.

(* ================================================================= *)
(** ** The external services and the effect monad

    The completion service is the sequence of texts it will answer, in
    order; every request made is logged.  The vector index answers a
    search text and a [top_k] with its matches (the embedding call is
    folded into it).  The session database is the SQLite store. *)

Record request := {
  req_temperature : Q;
  req_max_tokens : Z;
  req_messages : list (string * string)   (* (role, content) *)
}.

Record world := {
  w_store : Sessions.store;
  w_completions : list string;
  w_requests : list request;
  w_index : string -> nat -> list index_match
}.

Definition M (A : Type) : Type := world -> res A * world.

Definition ret {A} (a : A) : M A := fun w => (Ok a, w).
Definition raise {A} (e : string) : M A := fun w => (Exc e, w).
Definition bind {A B} (x : M A) (f : A -> M B) : M B :=
  fun w => match x w with
           | (Ok a, w') => f a w'
           | (Exc e, w') => (Exc e, w')
           end.
Notation "x <- c ;; f" := (bind c (fun x => f))
  (at level 61, c at next level, right associativity).
Definition lift {A} (r : res A) : M A := fun w => (r, w).

Definition with_store (w : world) (st : Sessions.store) : world :=
  {| w_store := st; w_completions := w_completions w; w_requests := w_requests w;
     w_index := w_index w |}.

Definition get_store : M Sessions.store := fun w => (Ok (w_store w), w).
Definition put_store (st : Sessions.store) : M unit := fun w => (Ok tt, with_store w st).

(** [openai.chat.completions.create(...).choices[0].message.content] *)
Definition complete (rq : request) : M string := fun w =>
  let w_logged o :=
    {| w_store := w_store w; w_completions := o; w_requests := (w_requests w ++ [rq])%list;
       w_index := w_index w |} in
  match w_completions w with
  | [] => (Exc "APIError", w_logged [])
  | out :: rest => (Ok out, w_logged rest)
  end.

(** [self.store.query(query_embedding=self.get_embedding(q), top_k=k)] *)
Definition query_index (q : string) (k : nat) : M (list index_match) :=
  fun w => (Ok (w_index w q k), w).

(** [TelecomRetriever.retrieve] *)
Definition retrieve (q : string) : M (list chunk * Q) :=
  matches <- query_index q RETRIEVAL_TOP_K ;; ret (chunks_of_matches matches).

(* ================================================================= *)
(** ** [app/agents/billing.py] *)

Module Billing.

(** The system prompt, by its first line (its text reaches only the
    completion service, whose answers are the world's). *)
Definition BILLING_AGENT_SYSTEM_PROMPT : string :=
  "You are a TelcoMax Wireless Billing Specialist with access to customer account data.".

(** [_parse_json_response]: [None] is a [JSONDecodeError]. *)
Definition parse_json_response (response_text : string) : option pyval :=
  let text := Py.strip response_text in
  let text := if Py.startswith text "```json" then Py.drop 7 text
              else if Py.startswith text "```" then Py.drop 3 text
              else text in
  let text := if Py.endswith text "```" then Py.drop_last 3 text else text in
  Json.loads (Py.strip text).

(** [_create_fallback_response] *)
Definition create_fallback_response (response_text : string) (chunks : list chunk)
  : pyval :=
  let citations := create_citations_from_chunks chunks response_text in
  PDict [("answer", PStr response_text);
         ("citations", PList (firstn 3 citations));
         ("confidence_note", PStr "Response was reformatted for validation.")].

(** [_create_not_found_response] *)
Definition not_found_answer : string :=
  "I couldn't find specific information about your account in our records. This might be because:"
  ++ Show.nl ++ "- The account number or details weren't found"
  ++ Show.nl ++ "- The billing period mentioned isn't available"
  ++ Show.nl ++ "Please verify your account information.".

Definition create_not_found_response (query : string) : pyval :=
  PDict [("answer", PStr not_found_answer);
         ("citations", PList []);
         ("top_score", PFloat 0);
         ("confidence_note", PStr "No relevant documents found.");
         ("clarifying_questions",
            PList [PStr "Can you confirm your account number?";
                   PStr "Which billing period are you asking about?"])].

(** The messages of the generation request. *)
Definition generation_messages (query context session_context : string)
  : list (string * string) :=
  let ctx_msg := "## Customer Context:" ++ Show.nl ++ session_context ++ Show.nl
                 ++ "Use this context to understand which customer/account this query is about." in
  app [("system", BILLING_AGENT_SYSTEM_PROMPT);
       ("system", "## Retrieved Documents:" ++ Show.nl ++ context)]
      (app (if String.eqb session_context "" then [] else [("system", ctx_msg)])
           [("user", query)]).

(** What [_generate_response] does with the completion text. *)
Definition response_of_completion (response_text : string) (chunks : list chunk)
  : res pyval :=
  let response_data :=
    match parse_json_response response_text with
    | Some v => v
    | None => create_fallback_response response_text chunks
    end in
  let? validation := Guardrails.validate_billing_response_structure response_data in
  if Guardrails.is_valid validation then Ok response_data
  else Ok (create_fallback_response response_text chunks).

(** [_generate_response] *)
Definition generate_response (query context : string) (chunks : list chunk)
           (session_context : string) : M pyval :=
  response_text <- complete {| req_temperature := 3 # 10; req_max_tokens := 1000;
                               req_messages := generation_messages query context session_context |} ;;
  lift (response_of_completion response_text chunks).

(** [response[k] = v] *)
Definition set_item (d : pyval) (k : string) (v : pyval) : res pyval :=
  match d with
  | PDict kv => Ok (PDict (dict_set kv k v))
  | PList _ => Exc "TypeError"
  | _ => Exc "TypeError"
  end.

(** [BillingAgent.process_query] *)
Definition search_query (query session_context : string) : string :=
  if String.eqb session_context "" then query else session_context ++ " " ++ query.

Definition process_query (query session_context : string) : M pyval :=
  r <- retrieve (search_query query session_context) ;;
  let '(chunks, top_score) := r in
  match chunks with
  | [] => ret (create_not_found_response query)
  | _ =>
      let context := format_context_for_llm chunks in
      response <- generate_response query context chunks session_context ;;
      lift (set_item response "top_score" (PFloat top_score))
  end.

(** [format_for_manager]: the dict literal reads its fields in order. *)
Definition format_for_manager (response : pyval) : res pyval :=
  let? answer := Guardrails.py_get response "answer" (PStr "") in
  let? citations := Guardrails.py_get response "citations" (PList []) in
  let? top_score := Guardrails.py_get response "top_score" (PFloat 0) in
  let? confidence_note := Guardrails.py_get response "confidence_note" (PStr "") in
  Ok (PDict [("answer", answer); ("citations", citations); ("top_score", top_score);
             ("confidence_note", confidence_note); ("raw_response", response)]).

End Billing.

(* ================================================================= *)
(** ** [app/agents/manager.py] *)

Module Manager.
Import Guardrails.

Definition generic_questions : list pyval :=
  [PStr "Can you provide more details about your question?";
   PStr "What specific information are you looking for?"].

(** [_generate_clarifying_questions] *)
Definition generate_clarifying_questions (v : ValidationResult) : list pyval :=
  let questions :=
    if truthy (details v) then
      let check_type := get_or (details v) "check" (PStr "") in
      match check_type with
      | PStr "citations_present" =>
          PList [PStr "Can you provide your account number or customer ID?";
                 PStr "What specific billing period are you asking about?";
                 PStr "Can you provide more details about your question?"]
      | PStr "confidence_threshold" =>
          get_or (details v) "clarifying_questions"
                 (PList [PStr "Can you be more specific about what you're looking for?";
                         PStr "Which billing period or invoice are you asking about?";
                         PStr "Can you provide your account details?"])
      | PStr "amounts_verified" =>
          let unverified := get_or (details v) "unverified_amounts" (PList []) in
          PList [PStr ("I found amounts " ++ Show.str unverified
                       ++ " in the answer but couldn't verify them.");
                 PStr "Can you confirm which charges you're asking about?";
                 PStr "Which specific invoice or bill are you referring to?"]
      | _ => PList []
      end
    else PList [] in
  if truthy questions then
    match questions with PList l => l | _ => [questions] end
  else generic_questions.

Definition bullet : string := Show.bytes [226; 128; 162]%nat.   (* U+2022 *)

(** [_create_approved_response] *)
Definition create_approved_response (billing_response : pyval) (v : ValidationResult)
  : pyval :=
  PDict [("approved", PBool true);
         ("reason", PStr (reason v));
         ("answer", get_or billing_response "answer" (PStr ""));
         ("citations", get_or billing_response "citations" (PList []));
         ("confidence", get_or billing_response "top_score" (PFloat 0));
         ("validation_details", details v)].

(** [_create_rejected_response] *)
Definition create_rejected_response (billing_response : pyval) (v : ValidationResult)
  : pyval :=
  let clarifying_questions := generate_clarifying_questions v in
  let clarifying_message :=
    "I need a bit more information to answer your question accurately:" ++ Show.nl
    ++ Py.join Show.nl (map (fun q => bullet ++ " " ++ Show.str q) clarifying_questions) in
  PDict [("approved", PBool false);
         ("reason", PStr (reason v));
         ("clarifying_questions", PList clarifying_questions);
         ("clarifying_message", PStr clarifying_message);
         ("validation_details", details v);
         ("original_answer", get_or billing_response "answer" (PStr ""));
         ("original_score", get_or billing_response "top_score" (PFloat 0))].

(** [ManagerAgent(confidence_threshold).validate_response] *)
Definition validate_response (confidence_threshold : Q) (billing_response : pyval)
  : res (bool * pyval) :=
  let? answer := py_get billing_response "answer" (PStr "") in
  let? citations := py_get billing_response "citations" (PList []) in
  let? top_score := py_get billing_response "top_score" (PFloat 0) in
  (* the progress line formats [len(citations)] and [top_score:.3f] *)
  let? _ := py_len citations in
  let? _ := num_of top_score in
  let? validation := manager_validate_response confidence_threshold
                       STRICT_AMOUNT_VERIFICATION answer citations top_score in
  if is_valid validation
  then Ok (true, create_approved_response billing_response validation)
  else Ok (false, create_rejected_response billing_response validation).

End Manager.

(* ================================================================= *)
(** ** [app/agents/sales.py] *)

Module Sales.

(** The system prompt, by its first line. *)
Definition SALES_AGENT_SYSTEM_PROMPT : string :=
  "You are a friendly and professional TelcoMax Wireless customer service representative.".

(** The classification prompt, its category list abbreviated (the
    prompt reaches only the completion service). *)
Definition classification_prompt (query : string) : string :=
  "Classify this customer query into ONE of these categories:" ++ Show.nl
  ++ "Customer Query: " ++ query ++ Show.nl
  ++ "Respond with ONLY the category name, nothing else.".

(** [classify_query]: one completion at temperature 0, normalised. *)
Definition classify_query (query : string) : M string :=
  out <- complete {| req_temperature := 0; req_max_tokens := 50;
                     req_messages :=
                       [("system", "You are a query classifier. Respond with only the category name.");
                        ("user", classification_prompt query)] |} ;;
  let intent := Py.lower (Py.strip out) in
  ret (if Py.contains BILLING_ACCOUNT_SPECIFIC intent then BILLING_ACCOUNT_SPECIFIC
       else if Py.contains BILLING_GENERAL intent then BILLING_GENERAL
       else SALES_GENERAL).

(** [_check_needs_billing_routing] *)
Definition check_needs_billing_routing (query response : string) : M bool :=
  intent <- classify_query query ;;
  if String.eqb intent BILLING_ACCOUNT_SPECIFIC then ret true
  else
    let validation := Guardrails.check_sales_agent_response response intent in
    ret (negb (Guardrails.is_valid validation)).

(** [generate_response(query)] (no extra context): the draft and whether
    it needs billing routing. *)
Definition generate_response (query : string) : M (string * bool) :=
  response_text <- complete {| req_temperature := 7 # 10; req_max_tokens := 500;
                               req_messages := [("system", SALES_AGENT_SYSTEM_PROMPT);
                                                ("user", query)] |} ;;
  needs_routing <- check_needs_billing_routing query response_text ;;
  ret (response_text, needs_routing).

(** The header of the source list, as the bytes the source file holds. *)
Definition sources_header : string :=
  Show.nl ++ Show.nl ++ Show.bytes [195; 176; 197; 184; 226; 128; 156; 226; 128; 185]%nat
  ++ " **Sources:**".

(** [format_final_response] *)
Definition format_final_response (billing_response : pyval) (approved : pyval)
  : res string :=
  if negb (truthy approved) then
    Ok ("I apologize, but I couldn't find enough information to answer "
        ++ "your question precisely. "
        ++ Show.str (get_or billing_response "clarifying_message"
                       (PStr "Could you please provide more details about your account?")))
  else
    let answer := get_or billing_response "answer" (PStr "") in
    let citations := get_or billing_response "citations" (PList []) in
    let? cites := if truthy citations then Guardrails.py_iter citations else Ok [] in
    let fix lines (i : nat) (cs : list pyval) : res (list string) :=
      match cs with
      | [] => Ok []
      | c :: r =>
          let? d := Guardrails.py_get c "doc_id" (PStr "Unknown") in
          let? q := Guardrails.py_get c "quote" (PStr "") in
          let? q50 := Show.slice_to 50 q in
          let? rest := lines (S i) r in
          Ok (("  [" ++ str_nat i ++ "] " ++ Show.str d ++ " - "
               ++ String (ascii_of_nat 34) (Show.str q50 ++ "..."
               ++ String (ascii_of_nat 34) EmptyString)) :: rest)
      end in
    let? ls := lines 1%nat cites in
    match answer with
    | PStr a =>
        Ok (Py.join Show.nl (a :: (if truthy citations then sources_header :: ls else ls)))
    | _ => Exc "TypeError"
    end.

End Sales.

(* ================================================================= *)
(** ** [app/graph.py]: the workflow *)

Module Graph.

Record GraphState := {
  query : string;
  session_id : string;
  session_context : string;
  intent : string;
  billing_response : pyval;
  manager_result : pyval;
  final_response : pyval;
  trace : list string;
  citations : pyval
}.

Definition set_session_context (s : GraphState) (v : string) : GraphState :=
  {| query := query s; session_id := session_id s; session_context := v;
     intent := intent s; billing_response := billing_response s;
     manager_result := manager_result s; final_response := final_response s;
     trace := trace s; citations := citations s |}.
Definition set_intent (s : GraphState) (v : string) : GraphState :=
  {| query := query s; session_id := session_id s; session_context := session_context s;
     intent := v; billing_response := billing_response s;
     manager_result := manager_result s; final_response := final_response s;
     trace := trace s; citations := citations s |}.
Definition set_billing_response (s : GraphState) (v : pyval) : GraphState :=
  {| query := query s; session_id := session_id s; session_context := session_context s;
     intent := intent s; billing_response := v;
     manager_result := manager_result s; final_response := final_response s;
     trace := trace s; citations := citations s |}.
Definition set_manager_result (s : GraphState) (v : pyval) : GraphState :=
  {| query := query s; session_id := session_id s; session_context := session_context s;
     intent := intent s; billing_response := billing_response s;
     manager_result := v; final_response := final_response s;
     trace := trace s; citations := citations s |}.
Definition set_final_response (s : GraphState) (v : pyval) : GraphState :=
  {| query := query s; session_id := session_id s; session_context := session_context s;
     intent := intent s; billing_response := billing_response s;
     manager_result := manager_result s; final_response := v;
     trace := trace s; citations := citations s |}.
Definition set_citations (s : GraphState) (v : pyval) : GraphState :=
  {| query := query s; session_id := session_id s; session_context := session_context s;
     intent := intent s; billing_response := billing_response s;
     manager_result := manager_result s; final_response := final_response s;
     trace := trace s; citations := v |}.
(** [state["trace"].append(msg)] *)
Definition log (s : GraphState) (msg : string) : GraphState :=
  {| query := query s; session_id := session_id s; session_context := session_context s;
     intent := intent s; billing_response := billing_response s;
     manager_result := manager_result s; final_response := final_response s;
     trace := (trace s ++ [msg])%list; citations := citations s |}.

(** [router_node] *)
Definition router_node (state : GraphState) : M GraphState :=
  let q := query state in
  state <-
    (if String.eqb (session_id state) "" then ret state
     else
       st <- get_store ;;
       let '(_, st') := Extractor.extract_and_update_session q (session_id state) st in
       _ <- put_store st' ;;
       match Sessions.get st' (session_id state) with
       | Some session =>
           let context := Sessions.get_context_summary session in
           if String.eqb context "" then ret state
           else ret (set_session_context state context)
       | None => ret state
       end) ;;
  i <- Sales.classify_query q ;;
  ret (log (set_intent state i) ("Router: classified as " ++ i)).

(** [sales_node] *)
Definition sales_node (state : GraphState) : M GraphState :=
  if truthy (manager_result state) then
    let mr := manager_result state in
    response <- lift (Sales.format_final_response mr (get_or mr "approved" (PBool false))) ;;
    ret (log (set_final_response state (PStr response)) "SalesAgent: provided response")
  else
    r <- Sales.generate_response (query state) ;;
    let '(response, needs_routing) := r in
    if needs_routing then
      (* Don't set final response - continue to billing *)
      ret (log state "SalesAgent: routing to BillingAgent")
    else
      ret (log (set_final_response state (PStr response)) "SalesAgent: provided response").

(** [billing_node] *)
Definition billing_node (state : GraphState) : M GraphState :=
  br <- Billing.process_query (query state) (session_context state) ;;
  score0 <- lift (Guardrails.py_get br "top_score" (PInt 0)) ;;
  score <- lift (Guardrails.num_of score0) ;;
  ret (log (set_billing_response state br)
           ("BillingAgent: retrieved docs, score=" ++ fmt_fixed 3 score)).

(** [manager_node], with the [ManagerAgent()] default threshold. *)
Definition manager_node (state : GraphState) : M GraphState :=
  r <- lift (Manager.validate_response CONFIDENCE_THRESHOLD (billing_response state)) ;;
  let '(approved, result) := r in
  reason50 <- lift (Show.slice_to 50 (get_or result "reason" (PStr ""))) ;;
  let state := log (set_manager_result state result)
                   ("ManagerAgent: " ++ (if approved then "APPROVED" else "REJECTED")
                    ++ " - " ++ Show.str reason50) in
  ret (if approved then set_citations state (get_or result "citations" (PList []))
       else state).

(** [format_response_node] *)
Definition format_response_node (state : GraphState) : M GraphState :=
  let mr := manager_result state in
  if truthy (get_or mr "approved" PNone) then
    let answer := get_or mr "answer" (PStr "") in
    let cits := get_or mr "citations" (PList []) in
    cites <- lift (if truthy cits then Guardrails.py_iter cits else Ok []) ;;
    let fix lines (i : nat) (cs : list pyval) : res (list string) :=
      match cs with
      | [] => Ok []
      | c :: r =>
          let? d := Guardrails.py_get c "doc_id" (PStr "Unknown") in
          let? q := Guardrails.py_get c "quote" (PStr "") in
          let? q60 := Show.slice_to 60 q in
          let? rest := lines (S i) r in
          Ok (("  [" ++ str_nat i ++ "] " ++ Show.str d ++ ": "
               ++ String (ascii_of_nat 34) (Show.str q60 ++ "..."
               ++ String (ascii_of_nat 34) EmptyString)) :: rest)
      end in
    ls <- lift (lines 1%nat cites) ;;
    match answer with
    | PStr a =>
        let text := Py.join Show.nl
                      (a :: (if truthy cits
                             then (Show.nl ++ Show.nl ++ "Sources:") :: ls else ls)) in
        ret (log (set_citations (set_final_response state (PStr text)) cits)
                 "Formatted final response")
    | _ => raise "TypeError"
    end
  else
    let message := get_or mr "clarifying_message"
                     (PStr "I need more information to answer your question.") in
    ret (log (set_final_response state message) "Formatted final response").

(** The conditional edges. *)
Inductive node := NSales | NBilling | NEnd.

Definition route_after_router (state : GraphState) : node :=
  if String.eqb (intent state) BILLING_ACCOUNT_SPECIFIC then NBilling
  else if String.eqb (intent state) BILLING_GENERAL then NBilling
  else NSales.

Definition route_after_sales (state : GraphState) : node :=
  if truthy (final_response state) then NEnd
  else if String.eqb (intent state) BILLING_ACCOUNT_SPECIFIC
          || String.eqb (intent state) BILLING_GENERAL then NBilling
  else NEnd.

(** billing -> manager -> format_response -> END *)
Definition billing_path (state : GraphState) : M GraphState :=
  s1 <- billing_node state ;;
  s2 <- manager_node s1 ;;
  format_response_node s2.

(** [app_workflow.invoke(initial_state)]: router, then its branch. *)
Definition invoke (state : GraphState) : M GraphState :=
  s0 <- router_node state ;;
  match route_after_router s0 with
  | NBilling => billing_path s0
  | _ =>
      s1 <- sales_node s0 ;;
      match route_after_sales s1 with
      | NBilling => billing_path s1
      | _ => ret s1
      end
  end.

(** [print_final_response]: it reads each citation's fields. *)
Definition print_final_response (response : pyval) (cits : pyval) : res unit :=
  if truthy cits then
    let? cs := Guardrails.py_iter cits in
    let fix go (l : list pyval) : res unit :=
      match l with
      | [] => Ok tt
      | c :: r =>
          let? _ := Guardrails.py_get c "doc_id" (PStr "Unknown") in
          let? _ := Guardrails.py_get c "chunk_id" (PStr "Unknown") in
          let? q := Guardrails.py_get c "quote" (PStr "") in
          let? _ := Guardrails.py_len q in
          go r
      end in
    go cs
  else Ok tt.

Record RunResult := {
  rr_final_response : pyval;
  rr_citations : pyval;
  rr_trace : list string;
  rr_approved : pyval   (* [PNone] is [None]: approval unknown *)
}.

Definition initial_state (q sid context : string) : GraphState :=
  {| query := q; session_id := sid; session_context := context; intent := "";
     billing_response := PDict []; manager_result := PDict [];
     final_response := PStr ""; trace := []; citations := PList [] |}.

(** [run_query(query, session_id)] *)
Definition run_query (q : string) (sid : option string) : M RunResult :=
  let sid_s := match sid with Some s => s | None => "" end in
  session_context <-
    (if String.eqb sid_s "" then ret ""
     else
       st <- get_store ;;
       r <- lift (Sessions.get_or_create st sid_s) ;;
       let '(session, st1) := r in
       let '(_, st2) := Sessions.add_conversation_turn st1 sid_s "user" q in
       _ <- put_store st2 ;;
       ret (Sessions.get_context_summary session)) ;;
  final_state <- invoke (initial_state q sid_s session_context) ;;
  let fr := final_response final_state in
  _ <-
    (if String.eqb sid_s "" then ret tt
     else
       st <- get_store ;;
       let '(_, st1) := Sessions.add_conversation_turn st sid_s "assistant" (Show.str fr) in
       fr500 <- lift (Show.slice_to 500 fr) ;;
       let '(_, st2) := Sessions.update st1 sid_s
                          [(Sessions.F_last_query, Some q);
                           (Sessions.F_last_response, Some (Show.str fr500))] in
       put_store st2) ;;
  _ <- lift (print_final_response fr (citations final_state)) ;;
  ret {| rr_final_response := fr;
         rr_citations := citations final_state;
         rr_trace := trace final_state;
         rr_approved := get_or (manager_result final_state) "approved" PNone |}.

End Graph.

(* ================================================================= *)
(** ** Readings of the specification, to compare with the code *)

Module SpecReading.

(** The context line as the specification words it: the segments
    "Account: X", "Customer: Y", "Discussing: Z", "Topic: W" of the known
    fields, joined by " | "; empty when nothing is known. *)
Definition context_line (sd : Sessions.SessionData) : string :=
  let seg (label : string) (o : option string) :=
    match Sessions.set_field o with Some v => [label ++ ": " ++ v] | None => [] end in
  Py.join " | " (app (seg "Account" (Sessions.account_id sd))
                 (app (seg "Customer" (Sessions.customer_name sd))
                 (app (seg "Discussing" (Sessions.billing_period sd))
                      (seg "Topic" (Sessions.current_topic sd))))).

(** A sticky entity field: a non-empty extracted value replaces the
    stored one, an absent or empty extraction leaves it as it was. *)
Definition sticky (extracted stored : option string) : option string :=
  match Sessions.set_field extracted with Some v => Some v | None => stored end.

(** Topic detection as the spec describes it: the overlap count of each
    topic of the table with the lowered text, in table order; no topic
    when the best count is 0, else the first topic reaching it. *)
Definition topic_overlaps (text : string) : list (string * nat) :=
  map (fun p => (fst p, length (filter (fun kw => Py.contains kw (Py.lower text)) (snd p))))
      Extractor.TOPIC_KEYWORDS.

Definition first_with_max (scores : list (string * nat)) : option string :=
  let best := list_max (map snd scores) in
  if (best =? 0)%nat then None
  else match find (fun p => (snd p =? best)%nat) scores with
       | Some p => Some (fst p)
       | None => None
       end.

Definition spec_topic (text : string) : option string :=
  first_with_max (topic_overlaps text).

End SpecReading.

(* ================================================================= *)
(** ** Sequences of store operations *)

Module Traces.
Import Sessions.

(** The turn table is in increasing id order and every id is below the
    [AUTOINCREMENT] counter: true of the empty store and kept by every
    store operation (see [TurnWindow]). *)
Definition wf (st : store) : Prop :=
  StronglySorted (fun a b => (t_id a < t_id b)%Z) (turns st) /\
  Forall (fun t => (t_id t < next_turn_id st)%Z) (turns st).

(** [add_conversation_turn] called on each [(session id, role, content)]
    of the list in turn. *)
Fixpoint append_turns (st : store) (ops : list (string * string * string)) : store :=
  match ops with
  | [] => st
  | op :: ops' =>
      append_turns (snd (add_conversation_turn st (fst (fst op)) (snd (fst op)) (snd op))) ops'
  end.

(** The last [n] elements of a list. *)
Definition lastn {A} (n : nat) (l : list A) : list A := skipn (length l - n) l.

Definition turn_of_row (t : turn_row) : ConversationTurn :=
  {| role := t_role t; content := t_content t |}.

Definition turn_of_op (op : string * string * string) : ConversationTurn :=
  {| role := snd (fst op); content := snd op |}.

(** The turns of a sequence of calls addressed to session [s]. *)
Definition turns_for (s : string) (ops : list (string * string * string)) : list ConversationTurn :=
  map turn_of_op (filter (fun op => String.eqb (fst (fst op)) s) ops).

(** The stored sessions have distinct ids (the primary key) and every
    turn belongs to a stored session. *)
Definition keys_unique (st : store) : Prop := NoDup (map r_session_id (sessions st)).

Definition refint (st : store) : bool :=
  forallb (fun t => match find_session st (t_session_id t) with
                    | Some _ => true | None => false end) (turns st).

(** The calls a client makes on a [SessionStore]; a [create] that raises
    leaves the database as it was. *)
Inductive store_op :=
  | OpCreate (sid : string)
  | OpGetOrCreate (sid : string)
  | OpUpdate (sid : string) (kwargs : list (field * option string))
  | OpAddTurn (sid r c : string)
  | OpDelete (sid : string).

Definition apply_op (st : store) (o : store_op) : store :=
  match o with
  | OpCreate sid => match create st sid with Ok (_, st') => st' | Exc _ => st end
  | OpGetOrCreate sid =>
      match get_or_create st sid with Ok (_, st') => st' | Exc _ => st end
  | OpUpdate sid kw => snd (update st sid kw)
  | OpAddTurn sid r c => snd (add_conversation_turn st sid r c)
  | OpDelete sid => snd (delete st sid)
  end.

(** The database after a sequence of calls on a fresh one. *)
Definition run_ops (ops : list store_op) : store := fold_left apply_op ops empty_store.



End Traces.

(* ================================================================= *)
(** ** Words of [str.split()]

    A text's words seen as lists of characters, and their joining with
    single spaces, for the statements about quotes. *)

Module Words.

Definition spaceless (w : list ascii) : Prop := forall c, In c w -> Py.is_space c = false.
Definition good_word (w : list ascii) : Prop := w <> [] /\ spaceless w.

(** [" ".join(ws)] on character lists. *)
Fixpoint joinl (ws : list (list ascii)) : list ascii :=
  match ws with
  | [] => []
  | [x] => x
  | x :: r => x ++ (" "%char :: joinl r)
  end.

End Words.

(* ================================================================= *)
(** ** Concrete inputs used by the examples below *)

Module Demo.

(** An index holding one invoice chunk, whatever the query. *)
Definition invoice_match : index_match :=
  {| md_doc_id := Some "DOC_4_INVOICE"; md_chunk_id := Some 2%Z;
     md_text := Some "Total due: $137.14 for January 2026"; m_score := 82 # 100 |}.
Definition invoice_index (q : string) (k : nat) : list index_match := [invoice_match].
Definition empty_index (q : string) (k : nat) : list index_match := [].

Definition world_of (st : Sessions.store) (outs : list string)
           (idx : string -> nat -> list index_match) : world :=
  {| w_store := st; w_completions := outs; w_requests := []; w_index := idx |}.

Definition dq : string := String (ascii_of_nat 34) EmptyString.

(** A completion in the requested JSON format citing a document that
    retrieval did not return, and carrying a [top_score] field. *)
Definition foreign_citation_output : string :=
  "{" ++ dq ++ "answer" ++ dq ++ ": " ++ dq ++ "You owe $137.14" ++ dq ++ ", "
  ++ dq ++ "citations" ++ dq ++ ": [{" ++ dq ++ "doc_id" ++ dq ++ ": " ++ dq ++ "DOC_9_OTHER" ++ dq
  ++ ", " ++ dq ++ "chunk_id" ++ dq ++ ": 7, " ++ dq ++ "quote" ++ dq ++ ": " ++ dq ++ "Total" ++ dq
  ++ "}], " ++ dq ++ "top_score" ++ dq ++ ": 1}".

(** The citation [foreign_citation_output] carries. *)
Definition foreign_citation : pyval :=
  PDict [("doc_id", PStr "DOC_9_OTHER"); ("chunk_id", PInt 7); ("quote", PStr "Total")].

(** A completion in the JSON format whose only citation is a string. *)
Definition string_citation_output : string :=
  "{" ++ dq ++ "answer" ++ dq ++ ": " ++ dq ++ "You owe $137.14" ++ dq ++ ", "
  ++ dq ++ "citations" ++ dq ++ ": [" ++ dq ++ "doc_id chunk_id quote" ++ dq ++ "], "
  ++ dq ++ "top_score" ++ dq ++ ": 1}".

(** A run that routes a sales draft to billing on a sales intent: the
    router's classification, the Sales draft, then the Sales node's own
    classification. *)
Definition rerouting_world : world :=
  world_of Sessions.empty_store
    ["sales_general"; "We offer Pro for $49.99."; "billing_account_specific"]
    invoice_index.

Definition rerouted_result : Graph.RunResult :=
  {| Graph.rr_final_response := PStr "";
     Graph.rr_citations := PList [];
     Graph.rr_trace := ["Router: classified as sales_general";
                        "SalesAgent: routing to BillingAgent"];
     Graph.rr_approved := PNone |}.

(** A session that knows only its account. *)
Definition account_only_session : Sessions.SessionData :=
  {| Sessions.session_id := "u1"; Sessions.account_id := Some "ACC-DEMO-001";
     Sessions.customer_name := None; Sessions.billing_period := None;
     Sessions.current_topic := None; Sessions.last_query := None;
     Sessions.last_response := None; Sessions.conversation_history := [];
     Sessions.max_history := 10 |}.

(** A store holding the freshly created session ["u1"]. *)
Definition one_session_store : Sessions.store :=
  {| Sessions.sessions := [Sessions.new_row "u1"]; Sessions.turns := [];
     Sessions.next_turn_id := 1%Z |}.

(** A Billing Answer citing the invoice chunk, with a high and a low
    score. *)
Definition invoice_citation : pyval := citation_of_chunk (chunk_of_match invoice_match).

Definition scored_response (score : Q) : list (string * pyval) :=
  [("answer", PStr "You owe $137.14"); ("citations", PList [invoice_citation]);
   ("top_score", PFloat score)].

End Demo.

(* ================================================================= *)
(** * Properties *)

(** ** Billing Responder: the empty-retrieval path *)

Module BillingNotFound.
Import Billing.

(** Reading the fields of the not-found answer. *)
Lemma not_found_fields (q : string) :
  get_or (create_not_found_response q) "answer" PNone = PStr not_found_answer /\
  get_or (create_not_found_response q) "citations" PNone = PList [] /\
  get_or (create_not_found_response q) "top_score" PNone = PFloat 0 /\
  get_or (create_not_found_response q) "clarifying_questions" PNone =
    PList [PStr "Can you confirm your account number?";
           PStr "Which billing period are you asking about?"].
Proof. repeat split; reflexivity. Qed.

(** C3: when retrieval returns no chunk, [process_query] returns the fixed
    not-found answer (empty citations, [top_score] 0.0, two clarifying
    questions) and leaves the world as it was: the completion service is
    not asked anything and no request is logged. *)
Theorem process_query_empty_retrieval (q ctx : string) (w : world) :
  fst (chunks_of_matches (w_index w (search_query q ctx) RETRIEVAL_TOP_K)) = [] ->
  exists questions,
    process_query q ctx w = (Ok (create_not_found_response q), w) /\
    get_or (create_not_found_response q) "answer" PNone = PStr not_found_answer /\
    get_or (create_not_found_response q) "citations" PNone = PList [] /\
    get_or (create_not_found_response q) "top_score" PNone = PFloat 0 /\
    get_or (create_not_found_response q) "clarifying_questions" PNone = PList questions /\
    length questions = 2%nat.
Proof.
  intros Hnil.
  destruct (not_found_fields q) as (Ha & Hc & Ht & Hq).
  eexists; split; [| repeat split; eassumption || reflexivity].
  unfold process_query, bind, retrieve, bind, query_index, ret.
  destruct (chunks_of_matches (w_index w (search_query q ctx) RETRIEVAL_TOP_K))
    as [chunks top] eqn:E.
  simpl in Hnil; subst chunks. reflexivity.
Qed.

End BillingNotFound.

Module BillingNotFoundWitness.
Import Billing.

Lemma process_query_empty_retrieval_witness :
  exists questions,
    process_query "How much do I owe?" ""
      (Demo.world_of Sessions.empty_store [] Demo.empty_index) =
      (Ok (create_not_found_response "How much do I owe?"),
       Demo.world_of Sessions.empty_store [] Demo.empty_index) /\
    get_or (create_not_found_response "How much do I owe?") "answer" PNone = PStr not_found_answer /\
    get_or (create_not_found_response "How much do I owe?") "citations" PNone = PList [] /\
    get_or (create_not_found_response "How much do I owe?") "top_score" PNone = PFloat 0 /\
    get_or (create_not_found_response "How much do I owe?") "clarifying_questions" PNone
      = PList questions /\
    length questions = 2%nat.
Proof.
  apply (BillingNotFound.process_query_empty_retrieval "How much do I owe?" ""
           (Demo.world_of Sessions.empty_store [] Demo.empty_index)).
  reflexivity.
Defined.

End BillingNotFoundWitness.

(** ** The Validator's rule order *)

Module ValidatorOrder.
Import Guardrails.

(** C2: the Validator checks citations first, then the confidence score,
    then (strict mode only) the amounts, and stops at the first failure:
    an empty citation list gives the [citations_present] failure whatever
    the score; with citations, a score under the threshold gives the
    [confidence_threshold] failure; with citations and a sufficient score,
    outside strict mode, the answer is approved. *)
Theorem manager_validate_rule_order (thr : Q) (strict : bool)
        (answer citations top_score : pyval) :
  (citations = PList [] ->
   exists v, manager_validate_response thr strict answer citations top_score = Ok v /\
             is_valid v = false /\ check_tag v = PStr "citations_present") /\
  (forall s, truthy citations = true -> num_of top_score = Ok s -> Qlt_bool s thr = true ->
   exists v, manager_validate_response thr strict answer citations top_score = Ok v /\
             is_valid v = false /\ check_tag v = PStr "confidence_threshold") /\
  (forall s a n, truthy citations = true -> num_of top_score = Ok s ->
   Qlt_bool s thr = false -> strict = false -> answer = PStr a -> py_len citations = Ok n ->
   exists v, manager_validate_response thr strict answer citations top_score = Ok v /\
             is_valid v = true).
Proof.
  repeat split.
  - intros ->. eexists; repeat split.
  - intros s Hc Hs Hlt. unfold manager_validate_response.
    rewrite Hc; simpl. rewrite Hs; simpl. rewrite Hlt. eexists; repeat split.
  - intros s a n Hc Hs Hlt Hst Ha Hn. unfold manager_validate_response.
    rewrite Hc; simpl. rewrite Hs; simpl. rewrite Hlt, Hst, Ha; simpl.
    rewrite Hn; simpl. eexists; repeat split.
Qed.

Lemma manager_validate_rule_order_witness :
  exists v, manager_validate_response CONFIDENCE_THRESHOLD STRICT_AMOUNT_VERIFICATION
              (PStr "You owe $5") (PList []) (PFloat (1 # 10)) = Ok v /\
            is_valid v = false /\ check_tag v = PStr "citations_present".
Proof.
  destruct (manager_validate_rule_order CONFIDENCE_THRESHOLD STRICT_AMOUNT_VERIFICATION
              (PStr "You owe $5") (PList []) (PFloat (1 # 10))) as [H _].
  apply H. reflexivity.
Defined.

End ValidatorOrder.

(** ** The session context summary *)

Module ContextSummary.
Import Sessions.

Lemma join_cons_nonempty (sep x : string) (xs : list string) :
  x <> "" -> Py.join sep (x :: xs) <> "".
Proof.
  intros Hx. destruct xs as [| y ys]; simpl; [exact Hx|].
  destruct x; [contradiction | discriminate].
Qed.

(** C9 as stated fails: the summary of a session that knows its account
    carries a "Session Context: " prefix before the "Account: X" line. *)
Lemma context_summary_prefix_counterexample :
  get_context_summary Demo.account_only_session = "Session Context: Account: ACC-DEMO-001" /\
  SpecReading.context_line Demo.account_only_session = "Account: ACC-DEMO-001" /\
  get_context_summary Demo.account_only_session
    <> SpecReading.context_line Demo.account_only_session.
Proof.
  split; [reflexivity | split; [reflexivity |]].
  vm_compute. discriminate.
Qed.

(** C9 amended: the summary is empty when no entity field is set, and
    otherwise "Session Context: " followed by the line
    "Account: X | Customer: Y | Discussing: Z | Topic: W" without the
    segments of the absent fields. *)
Theorem context_summary_shape (sd : SessionData) :
  get_context_summary sd =
    if String.eqb (SpecReading.context_line sd) "" then ""
    else "Session Context: " ++ SpecReading.context_line sd.
Proof.
  unfold get_context_summary, SpecReading.context_line.
  destruct (set_field (account_id sd)) as [a|];
  destruct (set_field (customer_name sd)) as [c|];
  destruct (set_field (billing_period sd)) as [p|];
  destruct (set_field (current_topic sd)) as [t|]; simpl app;
  try reflexivity;
  (match goal with
   | |- _ = if String.eqb (Py.join ?sep (?x :: ?xs)) "" then _ else _ =>
       assert (Hne : Py.join sep (x :: xs) <> "")
         by (apply join_cons_nonempty; discriminate);
       apply String.eqb_neq in Hne; rewrite Hne; reflexivity
   end).
Qed.

End ContextSummary.

(** ** Entity memory: extraction updates *)

Module EntityUpdate.
Import Sessions Extractor.

Lemma find_map_same {A} (p : A -> bool) (f : A -> A) (l : list A) :
  (forall x, p (f x) = p x) -> find p (map f l) = option_map f (find p l).
Proof.
  intros Hp. induction l as [| x l IH]; simpl; [reflexivity|].
  rewrite Hp. destruct (p x); [reflexivity | exact IH].
Qed.

Lemma set_column_id row f v : r_session_id (set_column row f v) = r_session_id row.
Proof. destruct f; reflexivity. Qed.

Lemma apply_updates_id row ups : r_session_id (apply_updates row ups) = r_session_id row.
Proof.
  revert row. induction ups as [| [f v] ups IH]; intros row; simpl; [reflexivity|].
  rewrite IH. apply set_column_id.
Qed.

Lemma find_session_some st sid row :
  find_session st sid = Some row -> r_session_id row = sid.
Proof.
  unfold find_session. intros H. apply find_some in H as [_ H].
  apply String.eqb_eq in H. exact H.
Qed.

(** The row of the session after [update] with a non-empty argument list. *)
Lemma find_session_update st sid ups row :
  find_session st sid = Some row -> ups <> [] ->
  find_session (snd (update st sid ups)) sid = Some (apply_updates row ups).
Proof.
  intros Hf Hne. unfold update.
  destruct ups as [| u ups']; [contradiction|]. rewrite Hf. simpl.
  unfold find_session. simpl.
  rewrite (find_map_same (fun r => String.eqb (r_session_id r) sid)).
  - unfold find_session in Hf. rewrite Hf. simpl.
    apply find_session_some in Hf. rewrite Hf, String.eqb_refl. reflexivity.
  - intros r. destruct (String.eqb (r_session_id r) sid) eqn:E; [|exact E].
    rewrite apply_updates_id. exact E.
Qed.

(** The columns after the extracted updates. *)
Lemma apply_updates_of_fields row e :
  let row' := apply_updates row (updates_of e) in
  r_account_id row' = SpecReading.sticky (e_account_id e) (r_account_id row) /\
  r_customer_name row' = SpecReading.sticky (e_customer_name e) (r_customer_name row) /\
  r_billing_period row' = SpecReading.sticky (e_billing_period e) (r_billing_period row) /\
  r_current_topic row' = SpecReading.sticky (e_topic e) (r_current_topic row).
Proof.
  unfold updates_of, SpecReading.sticky.
  destruct (set_field (e_account_id e));
  destruct (set_field (e_customer_name e));
  destruct (set_field (e_billing_period e));
  destruct (set_field (e_topic e)); repeat split.
Qed.

Lemma updates_of_nil_sticky e :
  updates_of e = [] ->
  forall old, SpecReading.sticky (e_account_id e) old = old /\
              SpecReading.sticky (e_customer_name e) old = old /\
              SpecReading.sticky (e_billing_period e) old = old /\
              SpecReading.sticky (e_topic e) old = old.
Proof.
  unfold updates_of, SpecReading.sticky.
  destruct (set_field (e_account_id e));
  destruct (set_field (e_customer_name e));
  destruct (set_field (e_billing_period e));
  destruct (set_field (e_topic e)); simpl; try discriminate; repeat split.
Qed.

(** The session row after [extract_and_update_session], field by field. *)
Lemma extract_and_update_row text sid st row :
  find_session st sid = Some row ->
  exists row',
    find_session (snd (extract_and_update_session text sid st)) sid = Some row' /\
    r_account_id row' = SpecReading.sticky (e_account_id (extract text)) (r_account_id row) /\
    r_customer_name row' = SpecReading.sticky (e_customer_name (extract text)) (r_customer_name row) /\
    r_billing_period row' = SpecReading.sticky (e_billing_period (extract text)) (r_billing_period row) /\
    r_current_topic row' = SpecReading.sticky (e_topic (extract text)) (r_current_topic row).
Proof.
  intros Hf. unfold extract_and_update_session.
  destruct (updates_of (extract text)) eqn:Eu.
  - exists row. split; [exact Hf|].
    destruct (updates_of_nil_sticky _ Eu (r_account_id row)) as (H1 & _).
    destruct (updates_of_nil_sticky _ Eu (r_customer_name row)) as (_ & H2 & _).
    destruct (updates_of_nil_sticky _ Eu (r_billing_period row)) as (_ & _ & H3 & _).
    destruct (updates_of_nil_sticky _ Eu (r_current_topic row)) as (_ & _ & _ & H4).
    rewrite H1, H2, H3, H4. repeat split.
  - exists (apply_updates row (updates_of (extract text))).
    split.
    + rewrite Eu. apply find_session_update; [exact Hf | discriminate].
    + apply apply_updates_of_fields.
Qed.

(** C5: after [extract_and_update_session] the session keeps every entity
    field (account id, customer name, billing period, topic) for which the
    extraction found nothing, and holds the extracted value for every
    field where it found a non-empty one. *)
Theorem extract_and_update_session_sticky (text sid : string) (st : store)
        (sd : SessionData) :
  get st sid = Some sd ->
  exists sd',
    get (snd (extract_and_update_session text sid st)) sid = Some sd' /\
    account_id sd' = SpecReading.sticky (e_account_id (extract text)) (account_id sd) /\
    customer_name sd' = SpecReading.sticky (e_customer_name (extract text)) (customer_name sd) /\
    billing_period sd' = SpecReading.sticky (e_billing_period (extract text)) (billing_period sd) /\
    current_topic sd' = SpecReading.sticky (e_topic (extract text)) (current_topic sd).
Proof.
  unfold get. destruct (find_session st sid) as [row|] eqn:Hf; [|discriminate].
  intros H; injection H as <-.
  destruct (extract_and_update_row text sid st row Hf) as (row' & Hf' & H1 & H2 & H3 & H4).
  rewrite Hf'. eexists; split; [reflexivity|]. simpl. auto.
Qed.

End EntityUpdate.

Module EntityUpdateWitness.
Import Sessions Extractor.

Lemma extract_and_update_session_sticky_witness :
  get Demo.one_session_store "u1" = Some (new_session "u1") /\
  exists sd',
    get (snd (extract_and_update_session "My account is acc-demo-001" "u1"
                Demo.one_session_store)) "u1" = Some sd' /\
    account_id sd' = SpecReading.sticky (e_account_id (extract "My account is acc-demo-001")) None /\
    customer_name sd' = SpecReading.sticky (e_customer_name (extract "My account is acc-demo-001")) None /\
    billing_period sd' = SpecReading.sticky (e_billing_period (extract "My account is acc-demo-001")) None /\
    current_topic sd' = SpecReading.sticky (e_topic (extract "My account is acc-demo-001")) None.
Proof.
  split; [reflexivity|].
  apply (EntityUpdate.extract_and_update_session_sticky "My account is acc-demo-001" "u1"
           Demo.one_session_store (new_session "u1")).
  reflexivity.
Defined.

End EntityUpdateWitness.

(** ** Account ids are upper case *)

Module AccountCase.
Import Sessions Extractor.
Local Open Scope nat_scope.

Lemma upper_c_idem (c : ascii) : Py.upper_c (Py.upper_c c) = Py.upper_c c.
Proof.
  unfold Py.upper_c. destruct (Py.is_lower c) eqn:E; [|rewrite E; reflexivity].
  unfold Py.is_lower in *. cbv zeta in *.
  apply andb_prop in E as [E1 E2]. apply Nat.leb_le in E1, E2.
  rewrite nat_ascii_embedding by lia.
  replace (97 <=? nat_of_ascii c - 32) with false by (symmetry; apply Nat.leb_gt; lia).
  reflexivity.
Qed.

Lemma upper_idem (s : string) : Py.upper (Py.upper s) = Py.upper s.
Proof.
  unfold Py.upper. rewrite list_ascii_of_string_of_list_ascii, map_map.
  f_equal. apply map_ext. apply upper_c_idem.
Qed.

(** The value [extract_account_id] returns is an upper-cased capture. *)
Lemma extract_account_id_upper (text a : string) :
  extract_account_id text = Some a -> exists g, a = Py.upper g.
Proof.
  unfold extract_account_id. destruct (first_search ACCOUNT_PATTERNS text); [|discriminate].
  destruct (Re.group text m 1) as [g|]; simpl; [|discriminate].
  intros H; injection H as <-. exists g. reflexivity.
Qed.

(** C10: every account id the extractor returns is fully upper case (a
    fixed point of [str.upper], being the [.upper()] of the capture), so is
    every account id that [extract_and_update_session] writes into a
    session, and the lower-case text ["acc-demo-001"] yields
    ["ACC-DEMO-001"]. *)
Theorem extract_account_id_uppercase (text sid : string) (st : store)
        (sd sd' : SessionData) :
  get st sid = Some sd ->
  get (snd (extract_and_update_session text sid st)) sid = Some sd' ->
  (forall a, extract_account_id text = Some a -> Py.upper a = a) /\
  (forall a, account_id sd' = Some a -> account_id sd' <> account_id sd ->
             Py.upper a = a) /\
  extract_account_id "acc-demo-001" = Some "ACC-DEMO-001".
Proof.
  assert (Hup : forall a, extract_account_id text = Some a -> Py.upper a = a).
  { intros a Ha. destruct (extract_account_id_upper text a Ha) as [g ->].
    apply upper_idem. }
  intros Hg Hg'. split; [exact Hup|]. split; [|vm_compute; reflexivity].
  unfold get in Hg. destruct (find_session st sid) as [row|] eqn:Hf; [|discriminate].
  injection Hg as <-.
  destruct (EntityUpdate.extract_and_update_row text sid st row Hf)
    as (row' & Hf' & H1 & _).
  unfold get in Hg'. rewrite Hf' in Hg'. injection Hg' as <-. simpl.
  intros a Ha Hne. rewrite H1 in Ha, Hne. simpl in Ha, Hne.
  unfold SpecReading.sticky in Ha, Hne.
  destruct (set_field (extract_account_id text)) as [v|] eqn:Es; [|contradiction].
  injection Ha as <-. apply Hup.
  destruct (extract_account_id text) as [x|]; simpl in Es; [|discriminate].
  destruct (String.eqb x "") ; [discriminate | exact Es].
Qed.

Lemma extract_account_id_uppercase_witness :
  get Demo.one_session_store "u1" = Some (new_session "u1") /\
  get (snd (extract_and_update_session "My account is acc-demo-001" "u1"
              Demo.one_session_store)) "u1"
    = Some (row_to_session Demo.one_session_store
              (apply_updates (new_row "u1") [(F_account_id, Some "ACC-DEMO-001")])) /\
  (forall a, extract_account_id "My account is acc-demo-001" = Some a -> Py.upper a = a) /\
  (forall a, Some "ACC-DEMO-001" = Some a -> Some "ACC-DEMO-001" <> None -> Py.upper a = a) /\
  extract_account_id "acc-demo-001" = Some "ACC-DEMO-001".
Proof.
  assert (H1 : get Demo.one_session_store "u1" = Some (new_session "u1")) by reflexivity.
  assert (H2 : get (snd (extract_and_update_session "My account is acc-demo-001" "u1"
              Demo.one_session_store)) "u1"
    = Some (row_to_session Demo.one_session_store
              (apply_updates (new_row "u1") [(F_account_id, Some "ACC-DEMO-001")])))
    by (vm_compute; reflexivity).
  split; [exact H1|]. split; [exact H2|].
  exact (extract_account_id_uppercase "My account is acc-demo-001" "u1"
           Demo.one_session_store _ _ H1 H2).
Defined.

End AccountCase.

(** ** Topic detection *)

Module TopicChoice.
Import Extractor.
Local Open Scope nat_scope.

(** [py_max_key] returns the first entry reaching the maximum. *)
Lemma py_max_key_first (best : string * nat) (l : list (string * nat)) :
  exists q,
    find (fun p => snd p =? Nat.max (snd best) (list_max (map snd l))) (best :: l) = Some q /\
    py_max_key best l = fst q.
Proof.
  revert best. induction l as [| p r IH]; intros best.
  - exists best. simpl. rewrite Nat.max_0_r, Nat.eqb_refl. split; reflexivity.
  - simpl py_max_key. change (list_max (map snd (p :: r))) with (Nat.max (snd p) (list_max (map snd r))).
    destruct (snd best <? snd p) eqn:Elt.
    + apply Nat.ltb_lt in Elt. destruct (IH p) as (q & Hq & Hk). exists q. split; [|exact Hk].
      replace (Nat.max (snd best) (Nat.max (snd p) (list_max (map snd r))))
        with (Nat.max (snd p) (list_max (map snd r))) by lia.
      simpl. replace (snd best =? Nat.max (snd p) (list_max (map snd r))) with false
        by (symmetry; apply Nat.eqb_neq; lia).
      exact Hq.
    + apply Nat.ltb_ge in Elt. destruct (IH best) as (q & Hq & Hk). exists q. split; [|exact Hk].
      replace (Nat.max (snd best) (Nat.max (snd p) (list_max (map snd r))))
        with (Nat.max (snd best) (list_max (map snd r))) by lia.
      simpl in Hq |- *. destruct (snd best =? Nat.max (snd best) (list_max (map snd r))) eqn:Eb;
        [exact Hq|].
      apply Nat.eqb_neq in Eb.
      replace (snd p =? Nat.max (snd best) (list_max (map snd r))) with false
        by (symmetry; apply Nat.eqb_neq; lia).
      exact Hq.
Qed.

Lemma find_filter_weaken {A} (f g : A -> bool) (l : list A) :
  (forall x, f x = true -> g x = true) -> find f (filter g l) = find f l.
Proof.
  intros Hfg. induction l as [| x l IH]; simpl; [reflexivity|].
  destruct (g x) eqn:Eg; simpl.
  - destruct (f x); [reflexivity | exact IH].
  - destruct (f x) eqn:Ef; [apply Hfg in Ef; congruence | exact IH].
Qed.

Lemma list_max_filter_pos (l : list (string * nat)) :
  list_max (map snd (filter (fun p => 0 <? snd p) l)) = list_max (map snd l).
Proof.
  induction l as [| x l IH]; simpl; [reflexivity|].
  destruct (0 <? snd x) eqn:E; simpl; rewrite IH; [reflexivity|].
  apply Nat.ltb_ge in E. lia.
Qed.

(** The code's choice over any score table equals the spec's. *)
Lemma max_key_of_positive (l : list (string * nat)) :
  match filter (fun p => 0 <? snd p) l with
  | [] => None
  | p :: r => Some (py_max_key p r)
  end = SpecReading.first_with_max l.
Proof.
  unfold SpecReading.first_with_max. rewrite <- list_max_filter_pos.
  destruct (filter (fun p => 0 <? snd p) l) as [| p r] eqn:Ef; [reflexivity|].
  assert (Hp : 0 < snd p).
  { assert (In p (filter (fun p => 0 <? snd p) l)) as Hin by (rewrite Ef; left; reflexivity).
    apply filter_In in Hin as [_ Hin]. apply Nat.ltb_lt. exact Hin. }
  change (list_max (map snd (p :: r))) with (Nat.max (snd p) (list_max (map snd r))).
  rewrite <- (find_filter_weaken
                (fun q => snd q =? Nat.max (snd p) (list_max (map snd r)))
                (fun q => 0 <? snd q) l).
  2: { intros x Hx. apply Nat.eqb_eq in Hx. apply Nat.ltb_lt. lia. }
  rewrite Ef.
  replace (Nat.max (snd p) (list_max (map snd r)) =? 0) with false
    by (symmetry; apply Nat.eqb_neq; lia).
  destruct (py_max_key_first p r) as (q & Hq & ->). rewrite Hq. reflexivity.
Qed.

(** C8: topic detection returns the topic with the greatest keyword
    overlap with the (lowered) text, the first in table order among
    those tied for it, and no topic when no keyword occurs. *)
Theorem extract_topic_first_max (text : string) :
  extract_topic text = SpecReading.spec_topic text.
Proof.
  unfold extract_topic, topic_scores, SpecReading.spec_topic, SpecReading.topic_overlaps.
  apply max_key_of_positive.
Qed.

End TopicChoice.

(** ** The conversation window *)

Module TurnWindow.
Import Sessions Traces.
Local Open Scope nat_scope.
Local Open Scope list_scope.

Abbreviation lt_id := (fun a b : turn_row => (t_id a < t_id b)%Z).

Lemma sorted_app_last (l : list turn_row) (row : turn_row) :
  StronglySorted lt_id l -> Forall (fun t => (t_id t < t_id row)%Z) l ->
  StronglySorted lt_id (l ++ [row]).
Proof.
  induction l as [| x l IH]; intros Hs Hb; simpl.
  - constructor; constructor.
  - apply StronglySorted_inv in Hs as [Hs Hx]. inversion Hb as [| ? ? Hxr Hb']; subst.
    constructor; [apply IH; assumption|].
    apply Forall_app. split; [exact Hx|]. constructor; [exact Hxr | constructor].
Qed.

Lemma sorted_filter (f : turn_row -> bool) (l : list turn_row) :
  StronglySorted lt_id l -> StronglySorted lt_id (filter f l).
Proof.
  induction l as [| x l IH]; intros Hs; simpl; [constructor|].
  apply StronglySorted_inv in Hs as [Hs Hx].
  destruct (f x); [|apply IH; exact Hs].
  constructor; [apply IH; exact Hs|].
  apply Forall_forall. intros y Hy. apply filter_In in Hy as [Hy _].
  rewrite Forall_forall in Hx. apply Hx, Hy.
Qed.

Lemma insert_desc_last (t : turn_row) (l : list turn_row) :
  Forall (fun u => (t_id t < t_id u)%Z) l -> insert_desc t l = l ++ [t].
Proof.
  induction l as [| u l IH]; intros Hl; simpl; [reflexivity|].
  inversion Hl as [| ? ? Hu Hl']; subst.
  replace (t_id u <? t_id t)%Z with false by (symmetry; apply Z.ltb_ge; lia).
  rewrite IH by exact Hl'. reflexivity.
Qed.

(** On a table in increasing id order, [ORDER BY id DESC] reverses it. *)
Lemma sort_desc_sorted (l : list turn_row) :
  StronglySorted lt_id l -> sort_desc l = rev l.
Proof.
  induction l as [| t l IH]; intros Hs; simpl; [reflexivity|].
  apply StronglySorted_inv in Hs as [Hs Ht].
  rewrite IH by exact Hs. apply insert_desc_last, Forall_rev, Ht.
Qed.

Lemma last_ten_sorted (st : store) (sid : string) :
  StronglySorted lt_id (turns_of st sid) ->
  last_ten st sid = rev (lastn 10 (turns_of st sid)).
Proof.
  intros Hs. unfold last_ten, lastn. rewrite sort_desc_sorted by exact Hs.
  apply firstn_rev.
Qed.

Lemma sorted_split (pre suf : list turn_row) (t u : turn_row) :
  StronglySorted lt_id (pre ++ suf) -> In t pre -> In u suf -> (t_id t < t_id u)%Z.
Proof.
  induction pre as [| x pre IH]; intros Hs Ht Hu; [contradiction|].
  simpl in Hs. apply StronglySorted_inv in Hs as [Hs Hx].
  destruct Ht as [<- | Ht].
  - rewrite Forall_forall in Hx. apply Hx, in_or_app. right. exact Hu.
  - apply IH; assumption.
Qed.

Lemma filter_all_false {A} (f : A -> bool) (l : list A) :
  (forall x, In x l -> f x = false) -> filter f l = [].
Proof.
  induction l as [| x l IH]; intros H; simpl; [reflexivity|].
  rewrite (H x (or_introl eq_refl)). apply IH. intros y Hy. apply H. right. exact Hy.
Qed.

Lemma filter_all_true {A} (f : A -> bool) (l : list A) :
  (forall x, In x l -> f x = true) -> filter f l = l.
Proof.
  induction l as [| x l IH]; intros H; simpl; [reflexivity|].
  rewrite (H x (or_introl eq_refl)), IH; [reflexivity|].
  intros y Hy. apply H. right. exact Hy.
Qed.

(** Keeping the rows whose id is among the ids of a suffix keeps exactly
    that suffix. *)
Lemma filter_keep_suffix (pre suf : list turn_row) (ks : list Z) :
  StronglySorted lt_id (pre ++ suf) ->
  (forall k, In k ks <-> exists u, In u suf /\ t_id u = k) ->
  filter (fun t => existsb (Z.eqb (t_id t)) ks) (pre ++ suf) = suf.
Proof.
  intros Hs Hks. rewrite filter_app.
  rewrite filter_all_false, filter_all_true; [reflexivity| |].
  - intros u Hu. apply existsb_exists. exists (t_id u).
    split; [apply Hks; exists u; split; [exact Hu | reflexivity] | apply Z.eqb_refl].
  - intros t Ht. apply Bool.not_true_iff_false. intros He.
    apply existsb_exists in He as (k & Hk & Ek). apply Z.eqb_eq in Ek.
    apply Hks in Hk as (u & Hu & <-).
    pose proof (sorted_split pre suf t u Hs Ht Hu). lia.
Qed.

Lemma filter_filter_ext {A} (f g f' g' : A -> bool) (l : list A) :
  (forall x, g x && f x = g' x && f' x) ->
  filter f (filter g l) = filter f' (filter g' l).
Proof.
  intros H. induction l as [| x l IH]; simpl; [reflexivity|].
  specialize (H x).
  destruct (g x), (g' x), (f x) eqn:Ef, (f' x) eqn:Ef'; simpl in H; try discriminate;
    simpl; rewrite ?Ef, ?Ef', IH; reflexivity.
Qed.

Lemma lastn_app_long {A} (n : nat) (w z : list A) :
  n <= length z -> lastn n (w ++ z) = lastn n z.
Proof.
  intros Hz. unfold lastn. rewrite length_app, skipn_app.
  rewrite skipn_all2 by lia. simpl. f_equal. lia.
Qed.

Lemma lastn_idem {A} (n : nat) (x y : list A) :
  lastn n (lastn n x ++ y) = lastn n (x ++ y).
Proof.
  destruct (Nat.le_gt_cases (length x) n) as [Hle | Hgt].
  - unfold lastn at 2. replace (length x - n) with 0 by lia. reflexivity.
  - unfold lastn at 2.
    transitivity (lastn n (firstn (length x - n) x ++ (skipn (length x - n) x ++ y))).
    + symmetry. apply lastn_app_long. rewrite length_app, length_skipn. lia.
    + rewrite app_assoc, firstn_skipn. reflexivity.
Qed.

Lemma lastn_map {A B} (f : A -> B) (n : nat) (l : list A) :
  map f (lastn n l) = lastn n (map f l).
Proof. unfold lastn. rewrite length_map, skipn_map. reflexivity. Qed.

Lemma length_lastn {A} (n : nat) (l : list A) : length (lastn n l) <= n.
Proof. unfold lastn. rewrite length_skipn. lia. Qed.

(** The [DELETE] of [add_conversation_turn], seen from the session it
    trims: the last ten of its rows remain. *)
Lemma window_filter (T : list turn_row) (s : string) :
  StronglySorted lt_id T ->
  filter (fun t => String.eqb (t_session_id t) s)
    (filter (fun t => existsb (Z.eqb (t_id t))
                        (map t_id (firstn 10 (sort_desc
                           (filter (fun t => String.eqb (t_session_id t) s) T))))
                      || negb (String.eqb (t_session_id t) s)) T)
  = lastn 10 (filter (fun t => String.eqb (t_session_id t) s) T).
Proof.
  intros HT.
  set (L := filter (fun t => String.eqb (t_session_id t) s) T).
  assert (HL : StronglySorted lt_id L) by (apply sorted_filter; exact HT).
  rewrite sort_desc_sorted, firstn_rev by exact HL.
  set (k := length L - 10).
  rewrite (filter_filter_ext _ _
             (fun t => existsb (Z.eqb (t_id t)) (map t_id (rev (skipn k L))))
             (fun t => String.eqb (t_session_id t) s)).
  2: { intros t. destruct (String.eqb (t_session_id t) s); simpl;
       [rewrite Bool.orb_false_r, Bool.andb_true_r; reflexivity
       | rewrite Bool.orb_true_r; reflexivity]. }
  fold L. unfold lastn. fold k.
  assert (E : L = firstn k L ++ skipn k L) by (symmetry; apply firstn_skipn).
  rewrite E at 1. apply filter_keep_suffix.
  - rewrite <- E. exact HL.
  - intros z. rewrite in_map_iff. split.
    + intros (u & Hu & Hin). exists u. split; [apply in_rev; exact Hin | exact Hu].
    + intros (u & Hin & Hu). exists u. split; [exact Hu | apply (in_rev (skipn k L)); exact Hin].
Qed.

(** The same [DELETE], seen from any other session: nothing changes. *)
Lemma window_other (T : list turn_row) (s x : string) :
  x <> s ->
  filter (fun t => String.eqb (t_session_id t) x)
    (filter (fun t => existsb (Z.eqb (t_id t))
                        (map t_id (firstn 10 (sort_desc
                           (filter (fun t => String.eqb (t_session_id t) s) T))))
                      || negb (String.eqb (t_session_id t) s)) T)
  = filter (fun t => String.eqb (t_session_id t) x) T.
Proof.
  intros Hx.
  rewrite (filter_filter_ext _ _ (fun t => String.eqb (t_session_id t) x) (fun _ => true)),
    filter_true; [reflexivity|].
  intros t. destruct (String.eqb (t_session_id t) x) eqn:E; simpl;
    [|rewrite Bool.andb_false_r; reflexivity].
  apply String.eqb_eq in E. rewrite E.
  replace (String.eqb x s) with false by (symmetry; apply String.eqb_neq; exact Hx).
  rewrite Bool.orb_true_r. reflexivity.
Qed.

(** One [add_conversation_turn] on an existing session. *)
Lemma add_turn_step (st : store) (s r c : string) :
  wf st -> find_session st s <> None ->
  wf (snd (add_conversation_turn st s r c)) /\
  (forall x, find_session (snd (add_conversation_turn st s r c)) x = find_session st x) /\
  turns_of (snd (add_conversation_turn st s r c)) s
    = lastn 10 (turns_of st s ++
                [{| t_id := next_turn_id st; t_session_id := s; t_role := r; t_content := c |}]) /\
  (forall x, x <> s -> turns_of (snd (add_conversation_turn st s r c)) x = turns_of st x).
Proof.
  intros [Hs Hb] Hf. unfold add_conversation_turn.
  destruct (find_session st s) as [row0|] eqn:Ef; [|contradiction].
  set (row := {| t_id := next_turn_id st; t_session_id := s; t_role := r; t_content := c |}).
  assert (HT : StronglySorted lt_id (turns st ++ [row]))
    by (apply sorted_app_last; assumption).
  assert (HL : filter (fun t => String.eqb (t_session_id t) s) (turns st ++ [row])
               = turns_of st s ++ [row]).
  { rewrite filter_app. simpl. rewrite String.eqb_refl. reflexivity. }
  cbv zeta. cbn [snd turns sessions next_turn_id]. split; [|split; [|split]].
  - split; [apply sorted_filter; exact HT|].
    apply Forall_forall. intros t Ht. apply filter_In in Ht as [Ht _].
    apply in_app_or in Ht as [Ht | [<- | []]].
    + rewrite Forall_forall in Hb. specialize (Hb t Ht). simpl in Hb |- *. lia.
    + simpl. lia.
  - intros x. reflexivity.
  - unfold last_ten, turns_of. cbn [turns].
    rewrite window_filter by exact HT. rewrite HL. reflexivity.
  - intros x Hx. unfold last_ten, turns_of. cbn [turns].
    rewrite window_other by exact Hx. rewrite filter_app. simpl.
    replace (String.eqb s x) with false by (symmetry; apply String.eqb_neq; congruence).
    apply app_nil_r.
Qed.

Lemma add_turn_missing (st : store) (x r c : string) :
  find_session st x = None -> add_conversation_turn st x r c = (None, st).
Proof. intros Hf. unfold add_conversation_turn. rewrite Hf. reflexivity. Qed.

(** The invariant [wf] holds in the empty store and is kept by [create],
    [update] and [add_conversation_turn]. *)
Lemma wf_empty_store : wf empty_store.
Proof. split; constructor. Qed.

Lemma wf_create (st : store) (sid : string) (sd : SessionData) (st' : store) :
  wf st -> create st sid = Ok (sd, st') -> wf st'.
Proof.
  intros Hw. unfold create. destruct (find_session st sid); [discriminate|].
  intros H; injection H as _ <-. exact Hw.
Qed.

Lemma wf_update (st : store) (sid : string) (ups : list (field * option string)) :
  wf st -> wf (snd (update st sid ups)).
Proof.
  intros Hw. unfold update. destruct ups; [exact Hw|].
  destruct (find_session st sid); exact Hw.
Qed.

Lemma wf_add_turn (st : store) (sid r c : string) :
  wf st -> wf (snd (add_conversation_turn st sid r c)).
Proof.
  intros Hw. destruct (find_session st sid) eqn:Ef.
  - apply add_turn_step; [exact Hw | congruence].
  - rewrite add_turn_missing by exact Ef. exact Hw.
Qed.

(** Any sequence of [add_conversation_turn] calls, on the session [s] or
    on others: the last ten turns of [s] are the last ten of its stored
    turns followed by the turns addressed to it. *)
Lemma append_turns_window (s : string) (ops : list (string * string * string)) :
  forall st, wf st -> find_session st s <> None ->
  wf (append_turns st ops) /\
  find_session (append_turns st ops) s = find_session st s /\
  lastn 10 (map turn_of_row (turns_of (append_turns st ops) s))
    = lastn 10 (map turn_of_row (turns_of st s) ++ turns_for s ops).
Proof.
  induction ops as [| [[x r] c] ops IH]; intros st Hw Hf.
  - simpl. rewrite app_nil_r. auto.
  - simpl append_turns. unfold turns_for. simpl filter.
    destruct (String.eqb x s) eqn:Ex.
    + apply String.eqb_eq in Ex. subst x.
      destruct (add_turn_step st s r c Hw Hf) as (Hw1 & Hf1 & Ht1 & _).
      destruct (IH _ Hw1) as (Hw2 & Hf2 & Ht2); [rewrite Hf1; exact Hf|].
      split; [exact Hw2|]. split; [rewrite Hf2; apply Hf1|].
      rewrite Ht2, Ht1, lastn_map, lastn_idem, map_app, <- app_assoc.
      reflexivity.
    + apply String.eqb_neq in Ex.
      assert (Hstep : wf (snd (add_conversation_turn st x r c)) /\
                      find_session (snd (add_conversation_turn st x r c)) s = find_session st s /\
                      turns_of (snd (add_conversation_turn st x r c)) s = turns_of st s).
      { destruct (find_session st x) eqn:Efx.
        - destruct (add_turn_step st x r c Hw) as (Hw1 & Hf1 & _ & Ho); [congruence|].
          split; [exact Hw1|]. split; [apply Hf1|]. apply Ho. congruence.
        - rewrite add_turn_missing by exact Efx. auto. }
      destruct Hstep as (Hw1 & Hf1 & Ht1).
      destruct (IH _ Hw1) as (Hw2 & Hf2 & Ht2); [rewrite Hf1; exact Hf|].
      split; [exact Hw2|]. split; [rewrite Hf2; apply Hf1|].
      rewrite Ht2, Ht1. reflexivity.
Qed.

(** C6: after any sequence of [add_conversation_turn] calls, the history
    [get] returns for an existing session [s] holds at most 10 turns, and
    they are the last 10 of the session's stored turns followed by the
    turns appended to [s], in insertion order: the oldest are evicted
    first.  The store satisfies [wf], as every store built by the
    [SessionStore] operations from the empty one does. *)
Theorem conversation_history_window (st : store) (s : string)
        (ops : list (string * string * string)) :
  wf st -> find_session st s <> None ->
  exists sd,
    get (append_turns st ops) s = Some sd /\
    conversation_history sd = lastn 10 (map turn_of_row (turns_of st s) ++ turns_for s ops) /\
    length (conversation_history sd) <= 10.
Proof.
  intros Hw Hf.
  destruct (append_turns_window s ops st Hw Hf) as ([Hs _] & Hf' & Ht).
  unfold get. destruct (find_session (append_turns st ops) s) as [row|] eqn:Er;
    [|rewrite <- Hf' in Hf; contradiction].
  eexists. split; [reflexivity|]. cbn [conversation_history row_to_session].
  rewrite (EntityUpdate.find_session_some _ _ _ Er).
  rewrite last_ten_sorted by (apply sorted_filter; exact Hs).
  rewrite rev_involutive.
  change (fun t : turn_row => {| role := t_role t; content := t_content t |}) with turn_of_row.
  rewrite lastn_map, Ht. split; [reflexivity | apply length_lastn].
Qed.

Lemma conversation_history_window_witness :
  wf Demo.one_session_store /\ find_session Demo.one_session_store "u1" <> None /\
  exists sd,
    get (append_turns Demo.one_session_store
           [("u1", "user", "hi"); ("u2", "user", "hello"); ("u1", "assistant", "Hi!")]) "u1"
      = Some sd /\
    conversation_history sd
      = lastn 10 (map turn_of_row (turns_of Demo.one_session_store "u1") ++
                  turns_for "u1" [("u1", "user", "hi"); ("u2", "user", "hello");
                                  ("u1", "assistant", "Hi!")]) /\
    length (conversation_history sd) <= 10.
Proof.
  assert (Hw : wf Demo.one_session_store) by (split; constructor).
  assert (Hf : find_session Demo.one_session_store "u1" <> None) by discriminate.
  split; [exact Hw|]. split; [exact Hf|].
  exact (conversation_history_window Demo.one_session_store "u1"
           [("u1", "user", "hi"); ("u2", "user", "hello"); ("u1", "assistant", "Hi!")] Hw Hf).
Defined.

End TurnWindow.

(** ** Where the citations of a billing answer come from *)

Module CitationSources.
Import Billing.

Lemma dict_get_set_other (kv : list (string * pyval)) (k k' : string) (v : pyval) :
  k' <> k -> dict_get (dict_set kv k v) k' = dict_get kv k'.
Proof.
  intros Hne. induction kv as [| [k0 v0] kv IH]; simpl.
  - replace (String.eqb k' k) with false by (symmetry; apply String.eqb_neq; exact Hne).
    reflexivity.
  - destruct (String.eqb k k0) eqn:E; simpl.
    + apply String.eqb_eq in E. subst k0.
      replace (String.eqb k' k) with false by (symmetry; apply String.eqb_neq; exact Hne).
      reflexivity.
    + rewrite IH. reflexivity.
Qed.

Lemma set_item_citations (d r v : pyval) :
  set_item d "top_score" v = Ok r -> get_or r "citations" PNone = get_or d "citations" PNone.
Proof.
  destruct d as [| | | | | | kv]; simpl; try discriminate.
  intros H; injection H as <-. simpl. rewrite dict_get_set_other by discriminate.
  reflexivity.
Qed.

Lemma in_firstn {A} (n : nat) (x : A) (l : list A) : In x (firstn n l) -> In x l.
Proof.
  intros H. rewrite <- (firstn_skipn n l). apply in_or_app. left. exact H.
Qed.

Lemma fallback_citations (t : string) (chunks : list chunk) (c : pyval) (cs : list pyval) :
  get_or (create_fallback_response t chunks) "citations" PNone = PList cs -> In c cs ->
  exists ch, In ch chunks /\ c = citation_of_chunk ch.
Proof.
  unfold create_fallback_response, get_or. cbn [dict_get String.eqb].
  intros H; injection H as <-. intros Hc.
  change (In c (firstn 3 (create_citations_from_chunks chunks t))) in Hc.
  apply in_firstn, in_map_iff in Hc as (ch & <- & Hch). exists ch. split; [exact Hch | reflexivity].
Qed.

(** [response_of_completion] returns the fallback record or the parsed,
    structurally valid one. *)
Lemma response_of_completion_cases (t : string) (chunks : list chunk) (resp : pyval) :
  response_of_completion t chunks = Ok resp ->
  resp = create_fallback_response t chunks \/
  (parse_json_response t = Some resp /\
   exists vr, Guardrails.validate_billing_response_structure resp = Ok vr /\
              Guardrails.is_valid vr = true).
Proof.
  unfold response_of_completion.
  destruct (parse_json_response t) as [v|] eqn:Ep.
  - destruct (Guardrails.validate_billing_response_structure v) as [vr|e] eqn:Ev;
      simpl; [|discriminate].
    destruct (Guardrails.is_valid vr) eqn:Eok; intros H; injection H as <-.
    + right. split; [reflexivity|]. exists vr. split; [exact Ev | exact Eok].
    + left. reflexivity.
  - destruct (Guardrails.validate_billing_response_structure
                (create_fallback_response t chunks)) as [vr|e]; simpl; [|discriminate].
    destruct (Guardrails.is_valid vr); intros H; injection H as <-; left; reflexivity.
Qed.

(** C1, as the code stands: a retrieved chunk is the source of every
    citation of the fallback and not-found answers, but when the first
    completion parses to a structurally valid record (which must itself
    hold [answer], [citations] and [top_score]), the citations returned
    are that record's, whatever documents they name. *)
Theorem process_query_citation_sources (q ctx : string) (w w' : world) (r : pyval)
        (cs : list pyval) (c : pyval) :
  process_query q ctx w = (Ok r, w') ->
  get_or r "citations" PNone = PList cs -> In c cs ->
  (exists ch, In ch (fst (chunks_of_matches (w_index w (search_query q ctx) RETRIEVAL_TOP_K)))
              /\ c = citation_of_chunk ch) \/
  (exists out rest v cs',
     w_completions w = out :: rest /\ parse_json_response out = Some v /\
     (exists vr, Guardrails.validate_billing_response_structure v = Ok vr /\
                 Guardrails.is_valid vr = true) /\
     get_or v "citations" PNone = PList cs' /\ In c cs').
Proof.
  unfold process_query, retrieve, query_index, bind, ret.
  destruct (chunks_of_matches (w_index w (search_query q ctx) RETRIEVAL_TOP_K))
    as [chunks top] eqn:Ec. simpl fst.
  destruct chunks as [| ch0 chs].
  - intros H; injection H as <- _. simpl. intros Hc; injection Hc as <-. intros [].
  - unfold generate_response, bind, complete, lift.
    destruct (w_completions w) as [| out rest] eqn:Eo; [discriminate|].
    destruct (response_of_completion out (ch0 :: chs)) as [resp|e] eqn:Er; [|discriminate].
    intros H; injection H as Hr _.
    rewrite (set_item_citations _ _ _ Hr). intros Hcs Hc.
    destruct (response_of_completion_cases _ _ _ Er) as [-> | (Ep & Hv)].
    + left. exact (fallback_citations _ _ _ _ Hcs Hc).
    + right. exists out, rest, resp, cs. auto.
Qed.

(** C1 fails: retrieval returns only chunk 2 of [DOC_4_INVOICE], yet the
    answer cites chunk 7 of [DOC_9_OTHER], taken from the completion. *)
Lemma process_query_foreign_citation :
  map (fun ch => (doc_id ch, chunk_id ch))
      (fst (chunks_of_matches (Demo.invoice_index "How much do I owe?" RETRIEVAL_TOP_K)))
    = [("DOC_4_INVOICE", 2%Z)] /\
  fst (process_query "How much do I owe?" ""
         (Demo.world_of Sessions.empty_store [Demo.foreign_citation_output] Demo.invoice_index))
    = Ok (PDict [("answer", PStr "You owe $137.14");
                 ("citations", PList [Demo.foreign_citation]);
                 ("top_score", PFloat (82 # 100))]) /\
  get_or Demo.foreign_citation "doc_id" PNone = PStr "DOC_9_OTHER".
Proof. split; [|split]; vm_compute; reflexivity. Qed.

Lemma process_query_citation_sources_witness :
  exists r w',
    process_query "How much do I owe?" ""
      (Demo.world_of Sessions.empty_store [Demo.foreign_citation_output] Demo.invoice_index)
      = (Ok r, w') /\
    get_or r "citations" PNone = PList [Demo.foreign_citation] /\
    ((exists ch, In ch (fst (chunks_of_matches
                               (Demo.invoice_index (search_query "How much do I owe?" "")
                                  RETRIEVAL_TOP_K)))
                 /\ Demo.foreign_citation = citation_of_chunk ch) \/
     (exists out rest v cs',
        w_completions (Demo.world_of Sessions.empty_store [Demo.foreign_citation_output]
                         Demo.invoice_index) = out :: rest /\
        parse_json_response out = Some v /\
        (exists vr, Guardrails.validate_billing_response_structure v = Ok vr /\
                    Guardrails.is_valid vr = true) /\
        get_or v "citations" PNone = PList cs' /\ In Demo.foreign_citation cs')).
Proof.
  destruct (process_query "How much do I owe?" ""
              (Demo.world_of Sessions.empty_store [Demo.foreign_citation_output] Demo.invoice_index))
    as [rr w'] eqn:E.
  pose proof E as E'. vm_compute in E'. injection E' as <- <-.
  eexists. eexists. split; [exact E|].
  assert (Hc : In Demo.foreign_citation [Demo.foreign_citation]) by (left; reflexivity).
  split; [vm_compute; reflexivity|].
  apply (process_query_citation_sources "How much do I owe?" ""
           (Demo.world_of Sessions.empty_store [Demo.foreign_citation_output] Demo.invoice_index)
           _ _ [Demo.foreign_citation] Demo.foreign_citation E); [vm_compute; reflexivity | exact Hc].
Defined.

End CitationSources.

(** ** Completions that parse to something other than an answer record *)

Module ParseFallback.
Import Billing.

(** C4 fails.  A completion that parses to a JSON number, bare or in a
    fenced block, makes the structure check evaluate [field in 5], which
    raises [TypeError] out of [process_query]; and a completion whose
    citation list holds a string passes the structure check and is
    returned with that malformed citation. *)
Theorem process_query_unvalidated_parses :
  fst (process_query "How much do I owe?" ""
         (Demo.world_of Sessions.empty_store ["5"] Demo.invoice_index))
    = Exc "TypeError" /\
  fst (process_query "How much do I owe?" ""
         (Demo.world_of Sessions.empty_store ["```json 5```"] Demo.invoice_index))
    = Exc "TypeError" /\
  fst (process_query "How much do I owe?" ""
         (Demo.world_of Sessions.empty_store [Demo.string_citation_output] Demo.invoice_index))
    = Ok (PDict [("answer", PStr "You owe $137.14");
                 ("citations", PList [PStr "doc_id chunk_id quote"]);
                 ("top_score", PFloat (82 # 100))]).
Proof. split; [|split]; vm_compute; reflexivity. Qed.

End ParseFallback.

(** ** A sales draft flagged for billing on a sales intent *)

Module SalesReroute.
Import Graph.

(** C7 fails.  The router classifies the query as [sales_general]; the
    Sales node's second classification says [billing_account_specific],
    so it flags the draft for rerouting and leaves [final_response]
    unset; [route_after_sales] sees the [sales_general] intent and ends
    the run.  [run_query] returns normally with an empty final response
    and [approved] unknown, with or without a session. *)
Theorem run_query_rerouted_sales_draft :
  fst (run_query "What plans do you offer?" None Demo.rerouting_world)
    = Ok Demo.rerouted_result /\
  fst (run_query "What plans do you offer?" (Some "u1") Demo.rerouting_world)
    = Ok Demo.rerouted_result /\
  rr_final_response Demo.rerouted_result = PStr "" /\ rr_approved Demo.rerouted_result = PNone.
Proof. split; [|split; [|split]]; vm_compute; reflexivity. Qed.

End SalesReroute.

(* ================================================================= *)
(** ** The session store: integrity, round trips and isolation *)

Module StoreProps.
Import Sessions Traces.

Lemma find_app_some {A} (p : A -> bool) (l m : list A) (r : A) :
  find p l = Some r -> find p (l ++ m) = Some r.
Proof.
  induction l as [| x l IH]; simpl; [discriminate|].
  destruct (p x); [exact (fun H => H) | exact IH].
Qed.

Lemma find_app_none {A} (p : A -> bool) (l m : list A) :
  find p l = None -> find p (l ++ m) = find p m.
Proof.
  induction l as [| x l IH]; simpl; [reflexivity|].
  destruct (p x); [discriminate | exact IH].
Qed.

Lemma find_existsb {A} (p : A -> bool) (l : list A) :
  match find p l with Some _ => true | None => false end = existsb p l.
Proof.
  induction l as [| x l IH]; simpl; [reflexivity|]. destruct (p x); [reflexivity | exact IH].
Qed.

Lemma filter_length_lt {A} (p : A -> bool) (l : list A) :
  (length (filter (fun x => negb (p x)) l) <? length l)%nat = existsb p l.
Proof.
  induction l as [| x l IH]; simpl; [reflexivity|].
  destruct (p x); simpl.
  - apply Nat.ltb_lt. pose proof (filter_length_le (fun x => negb (p x)) l). lia.
  - exact IH.
Qed.

Lemma find_filter_other {A} (key : A -> string) (l : list A) (sid x : string) :
  x <> sid ->
  find (fun r => String.eqb (key r) x) (filter (fun r => negb (String.eqb (key r) sid)) l)
  = find (fun r => String.eqb (key r) x) l.
Proof.
  intros Hx. induction l as [| r l IH]; simpl; [reflexivity|].
  destruct (String.eqb (key r) sid) eqn:Es; simpl.
  - apply String.eqb_eq in Es. rewrite Es.
    replace (String.eqb sid x) with false by (symmetry; apply String.eqb_neq; congruence).
    exact IH.
  - destruct (String.eqb (key r) x); [reflexivity | exact IH].
Qed.

Lemma find_filter_self {A} (key : A -> string) (l : list A) (sid : string) :
  find (fun r => String.eqb (key r) sid) (filter (fun r => negb (String.eqb (key r) sid)) l)
  = None.
Proof.
  induction l as [| r l IH]; simpl; [reflexivity|].
  destruct (String.eqb (key r) sid) eqn:Es; simpl; [exact IH|]. rewrite Es. exact IH.
Qed.

(** [get] reads the row it finds and the turns of that session only. *)
Lemma get_ext (st st' : store) (x : string) :
  find_session st' x = find_session st x -> turns_of st' x = turns_of st x ->
  get st' x = get st x.
Proof.
  intros Hf Ht. unfold get. rewrite Hf.
  destruct (find_session st x) as [row|] eqn:E; [|reflexivity].
  apply EntityUpdate.find_session_some in E.
  unfold row_to_session, last_ten. rewrite E, Ht. reflexivity.
Qed.

Lemma turns_of_delete (st : store) (sid x : string) :
  turns_of (snd (delete st sid)) x = if String.eqb x sid then [] else turns_of st x.
Proof.
  unfold turns_of, delete. cbn [snd turns]. induction (turns st) as [| t l IH]; simpl;
    [destruct (String.eqb x sid); reflexivity|].
  destruct (String.eqb (t_session_id t) sid) eqn:Es; simpl.
  - apply String.eqb_eq in Es. rewrite IH, Es.
    destruct (String.eqb x sid) eqn:Ex; [reflexivity|].
    replace (String.eqb sid x) with false; [reflexivity|].
    symmetry. apply String.eqb_neq. apply String.eqb_neq in Ex. congruence.
  - destruct (String.eqb (t_session_id t) x) eqn:Ex; rewrite IH; [|reflexivity].
    apply String.eqb_eq in Ex. subst x. rewrite Es. reflexivity.
Qed.

Lemma find_session_update_other (st : store) (sid x : string) kw :
  x <> sid -> find_session (snd (update st sid kw)) x = find_session st x.
Proof.
  intros Hx. unfold update. destruct kw as [| u kw]; [reflexivity|].
  destruct (find_session st sid); [|reflexivity].
  unfold find_session. cbn [snd sessions].
  rewrite (EntityUpdate.find_map_same (fun r => String.eqb (r_session_id r) x)).
  - destruct (find (fun r => String.eqb (r_session_id r) x) (sessions st)) as [r|] eqn:E;
      [|reflexivity].
    apply find_some in E as [_ E]. apply String.eqb_eq in E. subst x. simpl.
    replace (String.eqb (r_session_id r) sid) with false
      by (symmetry; apply String.eqb_neq; exact Hx).
    reflexivity.
  - intros r. destruct (String.eqb (r_session_id r) sid); [|reflexivity].
    rewrite EntityUpdate.apply_updates_id. reflexivity.
Qed.

Lemma update_turns (st : store) (sid : string) kw : turns (snd (update st sid kw)) = turns st.
Proof. unfold update. destruct kw; [reflexivity|]. destruct (find_session st sid); reflexivity. Qed.

Lemma update_keeps (st : store) (sid x : string) kw :
  find_session st x <> None -> find_session (snd (update st sid kw)) x <> None.
Proof.
  intros Hx. unfold update. destruct kw as [| u kw]; [exact Hx|].
  destruct (find_session st sid); [|exact Hx].
  unfold find_session in Hx |- *. cbn [snd sessions].
  rewrite (EntityUpdate.find_map_same (fun r => String.eqb (r_session_id r) x)).
  - destruct (find (fun r => String.eqb (r_session_id r) x) (sessions st));
      [discriminate | contradiction].
  - intros r. destruct (String.eqb (r_session_id r) sid); [|reflexivity].
    rewrite EntityUpdate.apply_updates_id. reflexivity.
Qed.

Lemma update_ids (st : store) (sid : string) kw :
  map r_session_id (sessions (snd (update st sid kw))) = map r_session_id (sessions st).
Proof.
  unfold update. destruct kw as [| u kw]; [reflexivity|].
  destruct (find_session st sid); [|reflexivity]. cbn [snd sessions].
  rewrite map_map. apply map_ext. intros r.
  destruct (String.eqb (r_session_id r) sid); [apply EntityUpdate.apply_updates_id | reflexivity].
Qed.

(** A freshly created session reads back as [new_session] when no turn
    of the database carries its id. *)
Lemma create_get (st : store) (sid : string) sd st' :
  create st sid = Ok (sd, st') -> turns_of st sid = [] -> get st' sid = Some sd.
Proof.
  unfold create. destruct (find_session st sid) eqn:Ef; [discriminate|].
  intros H Ht; injection H as <- <-.
  unfold get, find_session. cbn [sessions].
  unfold find_session in Ef. rewrite find_app_none by exact Ef. simpl.
  rewrite String.eqb_refl. unfold row_to_session, last_ten.
  change (r_session_id (new_row sid)) with sid.
  unfold turns_of in Ht |- *. cbn [turns]. rewrite Ht. reflexivity.
Qed.


Lemma refint_intro (st : store) :
  (forall t, In t (turns st) -> find_session st (t_session_id t) <> None) -> refint st = true.
Proof.
  intros H. unfold refint. apply forallb_forall. intros t Ht.
  specialize (H t Ht). destruct (find_session st (t_session_id t)); [reflexivity | contradiction].
Qed.

Lemma refint_elim (st : store) (t : turn_row) :
  refint st = true -> In t (turns st) -> find_session st (t_session_id t) <> None.
Proof.
  unfold refint. rewrite forallb_forall. intros H Ht. specialize (H t Ht).
  destruct (find_session st (t_session_id t)); [discriminate | discriminate].
Qed.

(** The four facts kept by every call. *)
Lemma inv_create (st : store) (sid : string) sd st' :
  refint st = true -> keys_unique st -> wf st ->
  (forall x, (length (turns_of st x) <= 10)%nat) ->
  create st sid = Ok (sd, st') ->
  refint st' = true /\ keys_unique st' /\ wf st' /\
  (forall x, (length (turns_of st' x) <= 10)%nat).
Proof.
  intros Hr Hk Hw Hb Hc. pose proof (TurnWindow.wf_create st sid sd st' Hw Hc) as Hw'.
  revert Hc. unfold create. destruct (find_session st sid) eqn:Ef; [discriminate|].
  intros H; injection H as _ <-. split; [|split; [|split]].
  - apply refint_intro. cbn [turns]. intros t Ht.
    pose proof (refint_elim st t Hr Ht) as H.
    unfold find_session in H |- *. cbn [sessions].
    destruct (find (fun r => String.eqb (r_session_id r) (t_session_id t)) (sessions st))
      as [r|] eqn:E; [|contradiction].
    rewrite (find_app_some _ _ _ r E). discriminate.
  - unfold keys_unique in *. cbn [sessions]. rewrite map_app. simpl.
    apply NoDup_app; [exact Hk | constructor; [intros [] | constructor]|].
    intros a Ha [<- | []]. apply in_map_iff in Ha as (r & Hr' & Hin).
    unfold find_session in Ef. eapply find_none in Ef; [|exact Hin].
    rewrite Hr', String.eqb_refl in Ef. discriminate.
  - exact Hw'.
  - exact Hb.
Qed.

Lemma inv_update (st : store) (sid : string) kw :
  refint st = true -> keys_unique st -> wf st ->
  (forall x, (length (turns_of st x) <= 10)%nat) ->
  let st' := snd (update st sid kw) in
  refint st' = true /\ keys_unique st' /\ wf st' /\
  (forall x, (length (turns_of st' x) <= 10)%nat).
Proof.
  intros Hr Hk Hw Hb st'. split; [|split; [|split]].
  - apply refint_intro. unfold st'. rewrite update_turns. intros t Ht.
    apply update_keeps. apply refint_elim; assumption.
  - unfold keys_unique, st'. rewrite update_ids. exact Hk.
  - apply TurnWindow.wf_update. exact Hw.
  - intros x. unfold turns_of, st'. rewrite update_turns. apply Hb.
Qed.

Lemma inv_add_turn (st : store) (sid r c : string) :
  refint st = true -> keys_unique st -> wf st ->
  (forall x, (length (turns_of st x) <= 10)%nat) ->
  let st' := snd (add_conversation_turn st sid r c) in
  refint st' = true /\ keys_unique st' /\ wf st' /\
  (forall x, (length (turns_of st' x) <= 10)%nat).
Proof.
  intros Hr Hk Hw Hb st'.
  destruct (find_session st sid) as [row0|] eqn:Ef.
  2: { unfold st'. rewrite TurnWindow.add_turn_missing by exact Ef. auto. }
  assert (Hne : find_session st sid <> None) by congruence.
  destruct (TurnWindow.add_turn_step st sid r c Hw Hne) as (Hw' & Hf' & Hs & Ho).
  split; [|split; [|split]].
  - apply refint_intro. intros t Ht. fold st' in Hf'. rewrite Hf'.
    revert Ht. unfold st', add_conversation_turn. rewrite Ef. cbv zeta.
    cbn [snd turns]. intros Ht. apply filter_In in Ht as [Ht _].
    apply in_app_or in Ht as [Ht | [<- | []]]; [apply refint_elim; assumption | exact Hne].
  - unfold keys_unique, st', add_conversation_turn. rewrite Ef. exact Hk.
  - exact Hw'.
  - intros x. destruct (String.eqb x sid) eqn:Ex.
    + apply String.eqb_eq in Ex. subst x. unfold st'. rewrite Hs. apply TurnWindow.length_lastn.
    + apply String.eqb_neq in Ex. unfold st'. rewrite Ho by exact Ex. apply Hb.
Qed.

Lemma inv_delete (st : store) (sid : string) :
  refint st = true -> keys_unique st -> wf st ->
  (forall x, (length (turns_of st x) <= 10)%nat) ->
  let st' := snd (delete st sid) in
  refint st' = true /\ keys_unique st' /\ wf st' /\
  (forall x, (length (turns_of st' x) <= 10)%nat).
Proof.
  intros Hr Hk [Hs Hlt] Hb st'. split; [|split; [|split]].
  - apply refint_intro. unfold st', delete. cbn [snd turns]. intros t Ht.
    apply filter_In in Ht as [Ht Hn]. apply Bool.negb_true_iff, String.eqb_neq in Hn.
    unfold find_session. cbn [sessions]. rewrite find_filter_other by exact Hn.
    apply refint_elim; assumption.
  - unfold keys_unique, st', delete. cbn [snd sessions].
    assert (E : forall l : list session_row,
               map r_session_id (filter (fun r => negb (String.eqb (r_session_id r) sid)) l)
               = filter (fun x => negb (String.eqb x sid)) (map r_session_id l)).
    { induction l as [| x l IH]; simpl; [reflexivity|].
      destruct (String.eqb (r_session_id x) sid); simpl; rewrite IH; reflexivity. }
    rewrite E. apply NoDup_filter. exact Hk.
  - unfold st', delete. split; cbn [snd turns next_turn_id].
    + apply TurnWindow.sorted_filter. exact Hs.
    + apply Forall_forall. intros t Ht. apply filter_In in Ht as [Ht _].
      rewrite Forall_forall in Hlt. apply Hlt, Ht.
  - intros x. unfold st'. rewrite turns_of_delete.
    destruct (String.eqb x sid); [simpl; lia | apply Hb].
Qed.

Lemma inv_apply_op (st : store) (o : store_op) :
  refint st = true -> keys_unique st -> wf st ->
  (forall x, (length (turns_of st x) <= 10)%nat) ->
  let st' := apply_op st o in
  refint st' = true /\ keys_unique st' /\ wf st' /\
  (forall x, (length (turns_of st' x) <= 10)%nat).
Proof.
  intros Hr Hk Hw Hb. destruct o as [sid | sid | sid kw | sid r c | sid]; simpl.
  - destruct (create st sid) as [[sd st']|] eqn:Ec; [|auto].
    eapply inv_create; eassumption.
  - unfold get_or_create. destruct (get st sid); [auto|].
    destruct (create st sid) as [[sd st']|] eqn:Ec; [|auto].
    eapply inv_create; eassumption.
  - apply inv_update; assumption.
  - apply inv_add_turn; assumption.
  - apply inv_delete; assumption.
Qed.

Lemma inv_run_ops (ops : list store_op) :
  let st := run_ops ops in
  refint st = true /\ keys_unique st /\ wf st /\
  (forall x, (length (turns_of st x) <= 10)%nat).
Proof.
  unfold run_ops.
  assert (H0 : refint empty_store = true /\ keys_unique empty_store /\ wf empty_store /\
               (forall x, (length (turns_of empty_store x) <= 10)%nat)).
  { split; [reflexivity | split; [constructor | split; [exact TurnWindow.wf_empty_store|]]].
    intros x. simpl. lia. }
  revert H0. generalize empty_store. induction ops as [| o ops IH]; intros st H; simpl; [exact H|].
  apply IH. destruct H as (Hr & Hk & Hw & Hb). apply inv_apply_op; assumption.
Qed.




Lemma delete_result (st : store) (sid : string) :
  fst (delete st sid) = match find_session st sid with Some _ => true | None => false end.
Proof.
  unfold delete, find_session. cbn [fst]. rewrite find_existsb.
  apply (filter_length_lt (fun r => String.eqb (r_session_id r) sid)).
Qed.

Lemma find_session_delete_self (st : store) (sid : string) :
  find_session (snd (delete st sid)) sid = None.
Proof. unfold find_session, delete. cbn [snd sessions]. apply find_filter_self. Qed.

End StoreProps.

Module StoreExtras.
Import Sessions Traces StoreProps.

(** Integrity of the database. Whatever sequence of [create],
    [get_or_create], [update], [add_conversation_turn] and [delete] calls
    is made on a fresh database, the session ids stay distinct and every
    stored turn belongs to a stored session. *)
Theorem store_integrity (ops : list store_op) :
  refint (run_ops ops) = true /\ keys_unique (run_ops ops).
Proof. destruct (inv_run_ops ops) as (Hr & Hk & _ & _). split; assumption. Qed.

(** The trimming [DELETE] of [add_conversation_turn]: after any sequence
    of calls on a fresh database, no session has more than ten rows in
    [conversation_turns]. *)
Theorem store_turn_bound (ops : list store_op) (x : string) :
  (length (turns_of (run_ops ops) x) <= 10)%nat.
Proof. destruct (inv_run_ops ops) as (_ & _ & _ & Hb). apply Hb. Qed.



(** Isolation: [update], [add_conversation_turn] and [delete] on one
    session leave what [get] returns for every other session unchanged;
    in particular the trimming [DELETE] never removes another session's
    turns. *)
Theorem other_sessions_untouched (st : store) (sid x : string)
        (kw : list (field * option string)) (r c : string) :
  x <> sid ->
  get (snd (update st sid kw)) x = get st x /\
  get (snd (add_conversation_turn st sid r c)) x = get st x /\
  get (snd (delete st sid)) x = get st x.
Proof.
  intros Hx. split; [|split].
  - apply get_ext; [apply find_session_update_other; exact Hx|].
    unfold turns_of. rewrite update_turns. reflexivity.
  - destruct (find_session st sid) eqn:Ef;
      [|rewrite TurnWindow.add_turn_missing by exact Ef; reflexivity].
    apply get_ext.
    + unfold add_conversation_turn. rewrite Ef. reflexivity.
    + unfold add_conversation_turn. rewrite Ef. cbv zeta. cbn [snd].
      unfold last_ten, turns_of. cbn [turns].
      rewrite TurnWindow.window_other by exact Hx. rewrite filter_app. simpl.
      replace (String.eqb sid x) with false by (symmetry; apply String.eqb_neq; congruence).
      apply app_nil_r.
  - apply get_ext.
    + unfold find_session, delete. cbn [snd sessions]. apply find_filter_other. exact Hx.
    + rewrite turns_of_delete.
      replace (String.eqb x sid) with false by (symmetry; apply String.eqb_neq; exact Hx).
      reflexivity.
Qed.

(** [delete] returns [True] exactly when the session existed; afterwards
    [get] finds nothing, and [get_or_create] makes a blank session again
    (none of the deleted entities or turns come back). *)
Theorem delete_session (st : store) (sid : string) :
  fst (delete st sid) = (match find_session st sid with Some _ => true | None => false end) /\
  get (snd (delete st sid)) sid = None /\
  exists st', get_or_create (snd (delete st sid)) sid = Ok (new_session sid, st') /\
              get st' sid = Some (new_session sid).
Proof.
  pose proof (find_session_delete_self st sid) as Hf.
  assert (Hg : get (snd (delete st sid)) sid = None) by (unfold get; rewrite Hf; reflexivity).
  split; [apply delete_result|]. split; [exact Hg|].
  unfold get_or_create. rewrite Hg. unfold create at 1. rewrite Hf.
  eexists. split; [reflexivity|].
  apply (create_get (snd (delete st sid)) sid).
  - unfold create. rewrite Hf. reflexivity.
  - rewrite turns_of_delete, String.eqb_refl. reflexivity.
Qed.

(** Calls on a session that does not exist: [update] returns [None]
    (whether or not there is anything to set), [add_conversation_turn]
    returns [None], and neither changes the database; [delete] returns
    [False]. *)
Theorem missing_session_noop (st : store) (sid r c : string)
        (kw : list (field * option string)) :
  get st sid = None ->
  update st sid kw = (None, st) /\
  add_conversation_turn st sid r c = (None, st) /\
  fst (delete st sid) = false.
Proof.
  intros H.
  assert (Ef : find_session st sid = None)
    by (unfold get in H; destruct (find_session st sid); [discriminate | reflexivity]).
  split; [|split].
  - unfold update. destruct kw; [rewrite H; reflexivity | rewrite Ef; reflexivity].
  - apply TurnWindow.add_turn_missing. exact Ef.
  - rewrite delete_result, Ef. reflexivity.
Qed.

End StoreExtras.

Module StoreExtrasWitness.
Import Sessions Traces.


Lemma other_sessions_untouched_witness :
  "u1" <> "u2" /\
  get (snd (update Demo.one_session_store "u2" [(F_last_query, Some "hi")])) "u1"
    = get Demo.one_session_store "u1" /\
  get (snd (add_conversation_turn Demo.one_session_store "u2" "user" "hi")) "u1"
    = get Demo.one_session_store "u1" /\
  get (snd (delete Demo.one_session_store "u2")) "u1" = get Demo.one_session_store "u1".
Proof.
  assert (H : "u1" <> "u2") by discriminate.
  split; [exact H|].
  apply (StoreExtras.other_sessions_untouched Demo.one_session_store "u2" "u1"
           [(F_last_query, Some "hi")] "user" "hi" H).
Defined.

Lemma missing_session_noop_witness :
  get Demo.one_session_store "u2" = None /\
  update Demo.one_session_store "u2" [(F_last_query, Some "hi")]
    = (None, Demo.one_session_store) /\
  add_conversation_turn Demo.one_session_store "u2" "user" "hi"
    = (None, Demo.one_session_store) /\
  fst (delete Demo.one_session_store "u2") = false.
Proof.
  assert (H : get Demo.one_session_store "u2" = None) by (vm_compute; reflexivity).
  split; [exact H|].
  apply (StoreExtras.missing_session_noop Demo.one_session_store "u2" "user" "hi"
           [(F_last_query, Some "hi")] H).
Defined.

End StoreExtrasWitness.

(* ================================================================= *)
(** ** [SessionData]: the in-memory history and its prompt *)

Module HistoryProps.
Import Sessions.

(** [SessionData.add_turn] appends the turn and keeps the last
    [max_history] turns, the new one last; with [max_history = 0] it keeps
    them all, since [history[-0:]] is the whole list. *)
Theorem add_turn_history (sd : SessionData) (r c : string) :
  conversation_history (add_turn sd r c) =
    if (max_history sd =? 0)%nat
    then (conversation_history sd ++ [{| role := r; content := c |}])%list
    else Traces.lastn (max_history sd)
           (conversation_history sd ++ [{| role := r; content := c |}])%list.
Proof.
  unfold add_turn, Traces.lastn. cbn [conversation_history].
  set (h := (conversation_history sd ++ [{| role := r; content := c |}])%list).
  destruct (max_history sd) as [| m] eqn:Em.
  - destruct (0 <? length h)%nat; reflexivity.
  - simpl Nat.eqb. destruct (S m <? length h)%nat eqn:Elt.
    + unfold py_tail. rewrite Nat2Z.id.
      replace (0 <? Z.of_nat (S m))%Z with true by (symmetry; apply Z.ltb_lt; lia).
      reflexivity.
    + apply Nat.ltb_ge in Elt. replace (length h - S m)%nat with 0%nat by lia.
      reflexivity.
Qed.

(** [get_conversation_for_prompt(last_n)] with [last_n = 0], or with
    [last_n] at least the length of the history, renders the whole
    history, one line per turn after the header. *)
Theorem conversation_prompt_whole_history (sd : SessionData) (n : nat) :
  (length (conversation_history sd) <= n)%nat ->
  get_conversation_for_prompt sd (Z.of_nat n) = get_conversation_for_prompt sd 0 /\
  get_conversation_for_prompt sd 0 =
    match conversation_history sd with
    | [] => ""
    | h => Py.join Show.nl ("Recent conversation:" :: map prompt_line h)
    end.
Proof.
  intros Hn. unfold get_conversation_for_prompt, py_tail.
  destruct (conversation_history sd) as [| t h]; [split; reflexivity|].
  simpl length in Hn.
  replace (0 <? Z.of_nat n)%Z with true by (symmetry; apply Z.ltb_lt; lia).
  rewrite Nat2Z.id. replace (length (t :: h) - n)%nat with 0%nat by (cbn [length]; lia).
  split; reflexivity.
Qed.

Lemma conversation_prompt_whole_history_witness :
  (length (conversation_history Demo.account_only_session) <= 3)%nat /\
  get_conversation_for_prompt Demo.account_only_session (Z.of_nat 3)
    = get_conversation_for_prompt Demo.account_only_session 0 /\
  get_conversation_for_prompt Demo.account_only_session 0 =
    match conversation_history Demo.account_only_session with
    | [] => ""
    | h => Py.join Show.nl ("Recent conversation:" :: map prompt_line h)
    end.
Proof.
  assert (H : (length (conversation_history Demo.account_only_session) <= 3)%nat)
    by (simpl; lia).
  split; [exact H|]. apply (conversation_prompt_whole_history _ 3 H).
Defined.

End HistoryProps.

(* ================================================================= *)
(** ** The Validator's decision *)

Module ManagerProps.
Import Guardrails Manager.

(** Every result of [validate_response]: the guardrail check ran on the
    three fields read from the dict, and its verdict picks the payload. *)
Lemma validate_response_shape (thr : Q) (br : pyval) (b : bool) (r : pyval) :
  validate_response thr br = Ok (b, r) ->
  exists v,
    manager_validate_response thr STRICT_AMOUNT_VERIFICATION
      (get_or br "answer" (PStr "")) (get_or br "citations" (PList []))
      (get_or br "top_score" (PFloat 0)) = Ok v /\
    b = is_valid v /\
    r = (if is_valid v then create_approved_response br v else create_rejected_response br v).
Proof.
  unfold validate_response. intros H.
  destruct br as [| | | | | | kv]; simpl in H; try discriminate.
  destruct (py_len _); simpl in H; [|discriminate].
  destruct (num_of _); simpl in H; [|discriminate].
  destruct (manager_validate_response _ _ _ _ _) as [v|e] eqn:Ev; simpl in H; [|discriminate].
  exists v. split; [reflexivity|].
  destruct (is_valid v); injection H as <- <-; split; reflexivity.
Qed.

(** A passing guardrail verdict needs truthy citations and a numeric
    score at or above the threshold, whatever the strict flag. *)
Lemma manager_validate_valid (thr : Q) (strict : bool) (a cs s : pyval) (v : ValidationResult) :
  manager_validate_response thr strict a cs s = Ok v -> is_valid v = true ->
  truthy cs = true /\ exists q, num_of s = Ok q /\ (thr <= q)%Q.
Proof.
  unfold manager_validate_response.
  destruct (truthy cs) eqn:Et; simpl; [|intros H; injection H as <-; discriminate].
  destruct (num_of s) as [q|e]; simpl; [|discriminate].
  destruct (Qlt_bool q thr) eqn:Eq; [intros H; injection H as <-; discriminate|].
  intros _ _. split; [reflexivity|]. exists q. split; [reflexivity|].
  unfold Qlt_bool in Eq. apply Bool.negb_false_iff, Qle_bool_iff in Eq. exact Eq.
Qed.

Lemma generate_clarifying_questions_nonempty (v : ValidationResult) :
  generate_clarifying_questions v <> [].
Proof.
  unfold generate_clarifying_questions.
  destruct (truthy _) eqn:E; [|discriminate].
  destruct (if truthy (details v) then _ else PList []) as [| | | | | [| x l] |];
    try discriminate; simpl in E; discriminate.
Qed.

End ManagerProps.

Module ManagerExtras.
Import Guardrails Manager ManagerProps.


(** A rejection says [approved: False] and always carries a non-empty
    list of clarifying questions. *)
Theorem validate_response_rejected (thr : Q) (br r : pyval) :
  validate_response thr br = Ok (false, r) ->
  get_or r "approved" PNone = PBool false /\
  exists qs, get_or r "clarifying_questions" PNone = PList qs /\ qs <> [].
Proof.
  intros H. destruct (validate_response_shape _ _ _ _ H) as (v & _ & Hb & ->).
  rewrite <- Hb. split; [reflexivity|].
  exists (generate_clarifying_questions v). split; [reflexivity|].
  apply generate_clarifying_questions_nonempty.
Qed.

(** With citations present and a numeric score below the threshold, the
    response is rejected and the clarifying questions shown are the three
    the guardrail attached to its verdict. *)
Theorem validate_response_low_confidence (thr : Q) (kv : list (string * pyval)) (n : nat) (q : Q) :
  truthy (get_or (PDict kv) "citations" (PList [])) = true ->
  py_len (get_or (PDict kv) "citations" (PList [])) = Ok n ->
  num_of (get_or (PDict kv) "top_score" (PFloat 0)) = Ok q ->
  (q < thr)%Q ->
  exists r, validate_response thr (PDict kv) = Ok (false, r) /\
            get_or r "clarifying_questions" PNone = strs clarifying_low_confidence.
Proof.
  intros Ht Hl Hn Hq.
  assert (Hlt : Qlt_bool q thr = true).
  { unfold Qlt_bool. apply Bool.negb_true_iff.
    destruct (Qle_bool thr q) eqn:E; [|reflexivity].
    apply Qle_bool_iff in E. exfalso. apply (Qlt_not_le q thr Hq E). }
  unfold validate_response. simpl py_get. cbn [res_bind].
  change (match dict_get kv "citations" with Some x => x | None => PList [] end)
    with (get_or (PDict kv) "citations" (PList [])).
  change (match dict_get kv "top_score" with Some x => x | None => PFloat 0 end)
    with (get_or (PDict kv) "top_score" (PFloat 0)).
  change (match dict_get kv "answer" with Some x => x | None => PStr "" end)
    with (get_or (PDict kv) "answer" (PStr "")).
  rewrite Hl, Hn. cbn [res_bind].
  unfold manager_validate_response at 1. rewrite Ht, Hn. cbn [negb res_bind]. rewrite Hlt.
  cbn [is_valid]. eexists. split; [reflexivity|]. reflexivity.
Qed.

End ManagerExtras.

Module ManagerExtrasWitness.
Import Guardrails Manager.


Lemma validate_response_rejected_witness :
  exists r,
    validate_response CONFIDENCE_THRESHOLD (PDict (Demo.scored_response (1 # 10)))
      = Ok (false, r) /\
    get_or r "approved" PNone = PBool false /\
    exists qs, get_or r "clarifying_questions" PNone = PList qs /\ qs <> [].
Proof.
  destruct (validate_response CONFIDENCE_THRESHOLD (PDict (Demo.scored_response (1 # 10))))
    as [[b r] | e] eqn:E; pose proof E as E'; vm_compute in E'; [|discriminate].
  injection E' as <- <-. eexists. split; [exact E|].
  exact (ManagerExtras.validate_response_rejected _ _ _ E).
Defined.

Lemma validate_response_low_confidence_witness :
  truthy (get_or (PDict (Demo.scored_response (1 # 10))) "citations" (PList [])) = true /\
  py_len (get_or (PDict (Demo.scored_response (1 # 10))) "citations" (PList [])) = Ok 1%nat /\
  num_of (get_or (PDict (Demo.scored_response (1 # 10))) "top_score" (PFloat 0)) = Ok (1 # 10) /\
  (1 # 10 < CONFIDENCE_THRESHOLD)%Q /\
  exists r, validate_response CONFIDENCE_THRESHOLD (PDict (Demo.scored_response (1 # 10)))
              = Ok (false, r) /\
            get_or r "clarifying_questions" PNone = strs clarifying_low_confidence.
Proof.
  assert (H1 : truthy (get_or (PDict (Demo.scored_response (1 # 10))) "citations" (PList []))
               = true) by reflexivity.
  assert (H2 : py_len (get_or (PDict (Demo.scored_response (1 # 10))) "citations" (PList []))
               = Ok 1%nat) by reflexivity.
  assert (H3 : num_of (get_or (PDict (Demo.scored_response (1 # 10))) "top_score" (PFloat 0))
               = Ok (1 # 10)) by reflexivity.
  assert (H4 : (1 # 10 < CONFIDENCE_THRESHOLD)%Q) by (vm_compute; reflexivity).
  split; [exact H1 | split; [exact H2 | split; [exact H3 | split; [exact H4|]]]].
  exact (ManagerExtras.validate_response_low_confidence _ _ _ _ H1 H2 H3 H4).
Defined.

End ManagerExtrasWitness.

(* ================================================================= *)
(** ** The Billing Responder on a non-empty retrieval *)

Module BillingProps.
Import Billing.

Lemma dict_get_set_same (kv : list (string * pyval)) (k : string) (v : pyval) :
  dict_get (dict_set kv k v) k = Some v.
Proof.
  induction kv as [| [k0 v0] kv IH]; simpl; [rewrite String.eqb_refl; reflexivity|].
  destruct (String.eqb k k0) eqn:E; simpl; rewrite E; [reflexivity | exact IH].
Qed.



(** [process_query] once retrieval has returned [m0 :: ms]. *)
Lemma process_query_nonempty (q ctx : string) (w : world) (m0 : index_match)
      (ms : list index_match) :
  w_index w (search_query q ctx) RETRIEVAL_TOP_K = m0 :: ms ->
  process_query q ctx w =
    (response <- generate_response q (format_context_for_llm (map chunk_of_match (m0 :: ms)))
                   (map chunk_of_match (m0 :: ms)) ctx ;;
     lift (set_item response "top_score" (PFloat (m_score m0)))) w.
Proof.
  intros Hi. unfold process_query, retrieve, query_index, bind at 1, bind at 1, ret.
  rewrite Hi. reflexivity.
Qed.

End BillingProps.

Module BillingExtras.
Import Billing BillingProps.

(** A non-empty retrieval makes [process_query] send exactly one
    completion request, whose last message is the user's query; and
    whatever the completion says, the answer it returns has as
    [top_score] the score of the first retrieved match. *)
Theorem process_query_one_request (q ctx : string) (w : world) (m0 : index_match)
        (ms : list index_match) :
  w_index w (search_query q ctx) RETRIEVAL_TOP_K = m0 :: ms ->
  (exists rq, w_requests (snd (process_query q ctx w)) = (w_requests w ++ [rq])%list /\
              last (req_messages rq) ("", "") = ("user", q)) /\
  (forall r, fst (process_query q ctx w) = Ok r -> get_or r "top_score" PNone = PFloat (m_score m0)).
Proof.
  intros Hi. rewrite (process_query_nonempty q ctx w m0 ms Hi).
  unfold generate_response, bind, complete, lift.
  set (rq := {| req_temperature := 3 # 10; req_max_tokens := 1000;
                req_messages := generation_messages q
                                  (format_context_for_llm (map chunk_of_match (m0 :: ms))) ctx |}).
  assert (Hl : last (req_messages rq) ("", "") = ("user", q)).
  { unfold rq, generation_messages. cbn [req_messages].
    destruct (String.eqb ctx ""); reflexivity. }
  destruct (w_completions w) as [| out rest].
  - split; [exists rq; split; [reflexivity | exact Hl] | discriminate].
  - destruct (response_of_completion out (map chunk_of_match (m0 :: ms))) as [resp|e];
      [|split; [exists rq; split; [reflexivity | exact Hl] | discriminate]].
    split; [exists rq; split; [reflexivity | exact Hl]|].
    intros r. cbn [fst]. destruct resp as [| | | | | | kv]; cbn [set_item]; try discriminate.
    intros H; injection H as <-. unfold get_or. rewrite dict_get_set_same. reflexivity.
Qed.


End BillingExtras.

Module BillingExtrasWitness.
Import Billing.

Lemma process_query_one_request_witness :
  w_index (Demo.world_of Sessions.empty_store ["You owe $137.14"] Demo.invoice_index)
    (search_query "How much do I owe?" "") RETRIEVAL_TOP_K = [Demo.invoice_match] /\
  (exists rq,
     w_requests (snd (process_query "How much do I owe?" ""
                        (Demo.world_of Sessions.empty_store ["You owe $137.14"]
                           Demo.invoice_index)))
     = (w_requests (Demo.world_of Sessions.empty_store ["You owe $137.14"] Demo.invoice_index)
          ++ [rq])%list /\
     last (req_messages rq) ("", "") = ("user", "How much do I owe?")) /\
  (forall r, fst (process_query "How much do I owe?" ""
                    (Demo.world_of Sessions.empty_store ["You owe $137.14"] Demo.invoice_index))
             = Ok r -> get_or r "top_score" PNone = PFloat (m_score Demo.invoice_match)).
Proof.
  assert (H : w_index (Demo.world_of Sessions.empty_store ["You owe $137.14"] Demo.invoice_index)
                (search_query "How much do I owe?" "") RETRIEVAL_TOP_K = [Demo.invoice_match])
    by reflexivity.
  split; [exact H|].
  exact (BillingExtras.process_query_one_request _ _ _ Demo.invoice_match [] H).
Defined.


End BillingExtrasWitness.
(* ================================================================= *)

Module WordProps.
Import Py Words.

Lemma las_app (a b : string) :
  list_ascii_of_string (a ++ b) = (list_ascii_of_string a ++ list_ascii_of_string b)%list.
Proof. induction a; simpl; [reflexivity | now rewrite IHa]. Qed.

Lemma las_join (ws : list string) :
  list_ascii_of_string (join " " ws) = joinl (map list_ascii_of_string ws).
Proof.
  induction ws as [|x [|y r] IH]; [reflexivity|reflexivity|].
  change (join " " (x :: y :: r)) with (x ++ " " ++ join " " (y :: r)).
  rewrite !las_app, IH. reflexivity.
Qed.

Lemma str_app_nil (s : string) : (s ++ "")%string = s.
Proof. induction s; simpl; [reflexivity | now rewrite IHs]. Qed.

(** A run of non-space characters only grows the current word. *)
Lemma split_aux_word (cur w rest : list ascii) :
  spaceless w -> split_ws_aux cur (w ++ rest) = split_ws_aux (rev w ++ cur) rest.
Proof.
  revert cur. induction w as [|c w IH]; intros cur Hs; [reflexivity|].
  simpl. rewrite (Hs c (or_introl eq_refl)).
  rewrite IH by (intros x Hx; apply Hs; right; exact Hx).
  rewrite <- app_assoc. reflexivity.
Qed.

(** Splitting words joined by single spaces, with a suffix glued to the
    last one, gives the words back. *)
Lemma split_aux_joinl (ws : list (list ascii)) (sfx : list ascii) :
  Forall good_word ws -> spaceless sfx -> ws <> [] ->
  split_ws_aux [] (joinl ws ++ sfx) = (removelast ws ++ [last ws [] ++ sfx])%list.
Proof.
  induction ws as [|x r IH]; intros Hg Hs Hne; [congruence|].
  inversion Hg as [|? ? [Hx Hxs] Hr]; subst.
  destruct r as [|y r'].
  - simpl. rewrite <- (app_nil_r (x ++ sfx)).
    rewrite split_aux_word by (intros c Hc; apply in_app_or in Hc as [Hc|Hc]; auto).
    rewrite !app_nil_r. simpl.
    destruct (rev (x ++ sfx)) eqn:E.
    + apply (f_equal (@rev ascii)) in E. rewrite rev_involutive in E.
      destruct x; [congruence | discriminate].
    + rewrite <- E, rev_involutive. reflexivity.
  - change (joinl (x :: y :: r')) with (x ++ (" "%char :: joinl (y :: r')))%list.
    rewrite <- app_assoc, split_aux_word by exact Hxs. simpl.
    rewrite app_nil_r.
    destruct (rev x) eqn:E.
    + apply (f_equal (@rev ascii)) in E. rewrite rev_involutive in E. simpl in E. congruence.
    + rewrite <- E, rev_involutive. f_equal. exact (IH Hr Hs ltac:(discriminate)).
Qed.

Lemma split_aux_words (cur l : list ascii) :
  spaceless cur -> Forall good_word (split_ws_aux cur l).
Proof.
  revert cur. induction l as [|c r IH]; intros cur Hc; simpl.
  - destruct cur; constructor; [|constructor]. split.
    + intros E. apply (f_equal (@length ascii)) in E. rewrite length_rev in E. discriminate.
    + intros x Hx. apply Hc. apply in_rev. exact Hx.
  - destruct (is_space c) eqn:Es.
    + destruct cur as [|a cur']; [apply IH; intros x []|].
      constructor; [|apply IH; intros x []]. split.
      * intros E. apply (f_equal (@length ascii)) in E. rewrite length_rev in E. discriminate.
      * intros x Hx. apply Hc. apply in_rev. exact Hx.
    + apply IH. intros x [<-|Hx]; auto.
Qed.

(** The words of [str.split()] are non-empty and hold no space. *)
Lemma split_words (s : string) :
  Forall good_word (map list_ascii_of_string (split s)).
Proof.
  unfold split. rewrite map_map.
  rewrite (map_ext _ (fun x => x)) by (intros; apply list_ascii_of_string_of_list_ascii).
  rewrite map_id. apply split_aux_words. intros x [].
Qed.

Lemma removelast_map {A B} (f : A -> B) (l : list A) :
  removelast (map f l) = map f (removelast l).
Proof.
  induction l as [|x [|y r] IH]; [reflexivity|reflexivity|].
  simpl in IH |- *. rewrite IH. reflexivity.
Qed.

Lemma last_map {A B} (f : A -> B) (l : list A) (d : A) :
  last (map f l) (f d) = f (last l d).
Proof.
  induction l as [|x [|y r] IH]; [reflexivity|reflexivity|].
  simpl in IH |- *. exact IH.
Qed.

Lemma last_firstn {A} (n : nat) (l : list A) (d : A) :
  (n < length l)%nat -> last (firstn (S n) l) d = nth n l d.
Proof.
  revert l. induction n as [|n IH]; intros [|x l] H; simpl in H; try lia.
  - reflexivity.
  - destruct l as [|y l']; simpl in H; [lia|].
    change (last (firstn (S n) (y :: l')) d = nth n (y :: l') d).
    apply IH. simpl. lia.
Qed.

Lemma sola_map_las (ws : list string) :
  map string_of_list_ascii (map list_ascii_of_string ws) = ws.
Proof.
  rewrite map_map.
  rewrite (map_ext _ (fun x => x)) by (intros; apply string_of_list_ascii_of_string).
  apply map_id.
Qed.

Lemma Forall_firstn {A} (P : A -> Prop) (n : nat) (l : list A) :
  Forall P l -> Forall P (firstn n l).
Proof.
  revert l; induction n; intros [|x l] H; simpl; auto.
  inversion H; subst. constructor; auto.
Qed.

Lemma split_join_suffix (ws : list string) (sfx : string) :
  Forall good_word (map list_ascii_of_string ws) ->
  spaceless (list_ascii_of_string sfx) -> ws <> [] ->
  split (join " " ws ++ sfx) = (removelast ws ++ [(last ws "" ++ sfx)%string])%list.
Proof.
  intros Hg Hs Hne. unfold split. rewrite las_app, las_join.
  rewrite split_aux_joinl by (first [assumption | destruct ws; [congruence | discriminate]]).
  rewrite map_app. cbn [map].
  rewrite removelast_map, sola_map_las.
  change (@nil ascii) with (list_ascii_of_string "").
  rewrite last_map, <- las_app, string_of_list_ascii_of_string. reflexivity.
Qed.

(** Joining a text's words with single spaces keeps the words. *)
Lemma split_join_words (t : string) : split (join " " (split t)) = split t.
Proof.
  pose proof (split_words t) as Hg.
  destruct (split t) as [|w ws'] eqn:Ew; [reflexivity|].
  rewrite <- (str_app_nil (join " " (w :: ws'))), split_join_suffix.
  - rewrite str_app_nil. symmetry. apply app_removelast_last. discriminate.
  - exact Hg.
  - intros c [].
  - discriminate.
Qed.

(** Keeping the first [n] words of a longer text and gluing ["..."] to
    the last of them. *)
Lemma split_cut (t : string) (n : nat) :
  (0 < n < length (split t))%nat ->
  split (join " " (firstn n (split t)) ++ "...") =
  (firstn (n - 1) (split t) ++ [(nth (n - 1) (split t) "" ++ "...")%string])%list.
Proof.
  intros Hn. pose proof (split_words t) as Hg.
  rewrite split_join_suffix.
  - destruct n as [|n']; [lia|]. replace (S n' - 1)%nat with n' by lia.
    rewrite removelast_firstn by lia. rewrite last_firstn by lia. reflexivity.
  - rewrite <- firstn_map. apply Forall_firstn. exact Hg.
  - intros c Hc. simpl in Hc. intuition (subst; reflexivity).
  - destruct (split t); simpl in Hn; [lia|]. destruct n; [lia | discriminate].
Qed.

End WordProps.

Module RetrieverExtras.
Import Retriever WordProps.

(** The quote of a citation built by [create_citations_from_chunks]: a
    text of at most 20 words gives exactly its words back (whitespace
    runs become single spaces); a longer text gives its first 20 words,
    the last of them followed by ["..."]. A quote never has more than 20
    words. *)
Theorem quote_words (t : string) :
  Py.split (quote_of t) =
  (if (20 <? length (Py.split t))%nat
   then (firstn 19 (Py.split t) ++ [(nth 19 (Py.split t) "" ++ "...")%string])%list
   else Py.split t).
Proof.
  unfold quote_of.
  destruct (20 <? length (Py.split t))%nat eqn:E.
  - apply Nat.ltb_lt in E. apply (split_cut t 20). lia.
  - apply Nat.ltb_ge in E. rewrite firstn_all2 by lia.
    rewrite str_app_nil. apply split_join_words.
Qed.

End RetrieverExtras.

Module GuardrailsProps.
Import Json Guardrails.

Lemma missing_fields_nil (fs : list string) (v : pyval) :
  missing_fields fs v = Ok [] <-> forall f, In f fs -> py_in f v = Ok true.
Proof.
  induction fs as [|f fs IH]; simpl.
  - split; [intros _ f []|reflexivity].
  - destruct (py_in f v) as [b|e] eqn:Ef; simpl.
    + destruct (missing_fields fs v) as [l|e] eqn:Em; simpl.
      * split.
        -- intros H. destruct b; [|discriminate]. injection H as Hl. subst l.
           intros g [<-|Hg]; [exact Ef | apply IH; [reflexivity | exact Hg]].
        -- intros H. assert (Hb : b = true)
             by (rewrite H in Ef by (left; reflexivity); injection Ef as <-; reflexivity).
           subst b. apply IH. intros g Hg. apply H. right. exact Hg.
      * split; [discriminate|]. intros H.
        assert (Hl : Exc e = Ok []) by (apply IH; intros g Hg; apply H; right; exact Hg).
        discriminate.
    + split; [discriminate|]. intros H. rewrite H in Ef by (left; reflexivity). discriminate.
Qed.

Lemma check_citations_some (i : nat) (cs : list pyval) (v : ValidationResult) :
  check_citations i cs = Ok (Some v) -> is_valid v = false.
Proof.
  revert i. induction cs as [|c cs IH]; intros i H; cbn [check_citations] in H;
    [discriminate|].
  destruct (missing_fields required_citation_fields c) as [[|m ms]|e];
    cbn [res_bind] in H.
  - exact (IH _ H).
  - injection H as <-. reflexivity.
  - discriminate.
Qed.

Lemma check_citations_none (i : nat) (cs : list pyval) :
  check_citations i cs = Ok None <->
  forall c, In c cs -> missing_fields required_citation_fields c = Ok [].
Proof.
  revert i. induction cs as [|c cs IH]; intros i; cbn [check_citations].
  - split; [intros _ c []|reflexivity].
  - destruct (missing_fields required_citation_fields c) as [[|m ms]|e] eqn:Em;
      cbn [res_bind].
    + rewrite IH. split.
      * intros H d [<-|Hd]; [exact Em | apply H; exact Hd].
      * intros H d Hd. apply H. right. exact Hd.
    + split; [discriminate|]. intros H. rewrite H in Em by (left; reflexivity). discriminate.
    + split; [discriminate|]. intros H. rewrite H in Em by (left; reflexivity). discriminate.
Qed.

End GuardrailsProps.

Module GuardrailsExtras.
Import Json Guardrails GuardrailsProps WordProps.

(** [validate_billing_response_structure] passes a response exactly when
    it is a dict holding [answer], [citations] and [top_score], its
    citations are a list, and every citation holds [doc_id], [chunk_id]
    and [quote] in the sense of Python's [in] (a dict key, a list item or
    a substring of a string). *)
Theorem validate_structure_valid (r : pyval) :
  (exists v, validate_billing_response_structure r = Ok v /\ is_valid v = true) <->
  (exists kv cs, r = PDict kv /\
     (forall f, In f required_fields -> dict_get kv f <> None) /\
     dict_get kv "citations" = Some (PList cs) /\
     (forall c f, In c cs -> In f required_citation_fields -> py_in f c = Ok true)).
Proof.
  unfold validate_billing_response_structure. split.
  - intros (v & H & Hv).
    destruct (missing_fields required_fields r) as [[|m ms]|e] eqn:Em; simpl in H;
      [| injection H as <-; discriminate | discriminate].
    destruct r as [| | | | | l | kv]; cbn [py_get res_bind] in H; try discriminate.
    assert (Hf : forall f, In f required_fields -> dict_get kv f <> None).
    { intros f Hin E. apply (proj1 (missing_fields_nil _ _) Em f) in Hin.
      simpl in Hin. rewrite E in Hin. discriminate. }
    destruct (dict_get kv "citations") as [c|] eqn:Ec;
      [| exfalso; exact (Hf "citations" ltac:(simpl; auto) Ec)].
    destruct c as [| | | | | cs |]; try (injection H as <-; discriminate).
    destruct (check_citations 0 cs) as [[v'|]|e] eqn:Ecc; cbn [res_bind] in H; try discriminate.
    + injection H as <-. rewrite (check_citations_some _ _ _ Ecc) in Hv. discriminate.
    + exists kv, cs. split; [reflexivity|]. split; [exact Hf|]. split; [exact Ec|].
      intros c f Hc Hfin.
      exact (proj1 (missing_fields_nil _ _) (proj1 (check_citations_none 0 cs) Ecc c Hc) f Hfin).
  - intros (kv & cs & -> & Hf & Hc & Hcs).
    assert (Em : missing_fields required_fields (PDict kv) = Ok []).
    { apply missing_fields_nil. intros f Hin. simpl.
      destruct (dict_get kv f) eqn:E; [reflexivity | exfalso; exact (Hf f Hin E)]. }
    assert (Ecc : check_citations 0 cs = Ok None).
    { apply check_citations_none. intros c Hin. apply missing_fields_nil. intros f Hin'.
      apply Hcs; assumption. }
    rewrite Em. simpl. rewrite Hc. simpl. rewrite Ecc. simpl.
    eexists. split; reflexivity.
Qed.

(** [truncate_quote] with a positive word limit: a quote within the limit
    comes back unchanged; a longer one becomes its first [max_words]
    words joined by single spaces, ["..."] glued to the last; either way
    the result has at most [max_words] words. *)
Theorem truncate_quote_words (quote : string) (max_words : Z) :
  (0 < max_words)%Z ->
  (Z.of_nat (length (Py.split quote)) <= max_words -> truncate_quote quote max_words = quote)%Z /\
  ((max_words < Z.of_nat (length (Py.split quote)))%Z ->
   Py.split (truncate_quote quote max_words) =
   (firstn (Z.to_nat max_words - 1) (Py.split quote)
    ++ [(nth (Z.to_nat max_words - 1) (Py.split quote) "" ++ "...")%string])%list) /\
  (length (Py.split (truncate_quote quote max_words)) <= Z.to_nat max_words)%nat.
Proof.
  intros Hm. unfold truncate_quote.
  destruct (Z.of_nat (length (Py.split quote)) <=? max_words)%Z eqn:E.
  - apply Z.leb_le in E. split; [reflexivity|]. split; [lia|]. lia.
  - apply Z.leb_gt in E.
    assert (Hs : Py.split (Py.join " " (py_head max_words (Py.split quote)) ++ "...") =
                 (firstn (Z.to_nat max_words - 1) (Py.split quote)
                  ++ [(nth (Z.to_nat max_words - 1) (Py.split quote) "" ++ "...")%string])%list).
    { unfold py_head. replace (0 <=? max_words)%Z with true by (symmetry; apply Z.leb_le; lia).
      apply split_cut. lia. }
    split; [lia|]. split; [intros _; exact Hs|].
    rewrite Hs, length_app, length_firstn. simpl. lia.
Qed.


End GuardrailsExtras.

Module GuardrailsExtrasWitness.
Import Guardrails GuardrailsExtras.

Lemma truncate_quote_words_witness :
  (0 < 2)%Z /\ Py.split (truncate_quote "one two  three" 2) = ["one"; "two..."].
Proof.
  split; [lia|].
  destruct (truncate_quote_words "one two  three" 2 ltac:(lia)) as (_ & H & _).
  rewrite H by (vm_compute; reflexivity). vm_compute. reflexivity.
Defined.

End GuardrailsExtrasWitness.

Module ExtractorExtras.
Import Sessions StoreProps.

(** [extract_and_update_session] only ever writes entity columns of the
    given session: it creates and deletes no session, leaves every stored
    conversation turn in place, and leaves what [get] returns for every
    other session unchanged. *)
Theorem extract_and_update_scope (text sid : string) (st : store) :
  let st' := snd (Extractor.extract_and_update_session text sid st) in
  map r_session_id (sessions st') = map r_session_id (sessions st) /\
  turns st' = turns st /\
  (forall x, x <> sid -> get st' x = get st x).
Proof.
  unfold Extractor.extract_and_update_session. cbv zeta.
  destruct (Extractor.updates_of (Extractor.extract text)) as [| u us];
    [split; [reflexivity | split; [reflexivity | intros; reflexivity]]|].
  cbn [snd]. split; [apply update_ids|]. split; [apply update_turns|].
  intros x Hx. apply get_ext; [apply find_session_update_other; exact Hx|].
  unfold turns_of. rewrite update_turns. reflexivity.
Qed.

End ExtractorExtras.

Module SalesProps.

(** One completion request, appended to the log. *)
Lemma complete_ok (rq : request) (w : world) (out : string) (w' : world) :
  complete rq w = (Ok out, w') -> w_requests w' = (w_requests w ++ [rq])%list.
Proof.
  unfold complete. destruct (w_completions w); [discriminate|].
  intros H. injection H as _ <-. reflexivity.
Qed.

End SalesProps.

Module SalesExtras.
Import Json Sales SalesProps.

(** [classify_query] makes exactly one completion request and, when it
    returns, returns one of the three labels [billing_account_specific],
    [billing_general] and [sales_general], whatever the model answered. *)
Theorem classify_query_labels (query : string) (w : world) (intent : string) (w' : world) :
  classify_query query w = (Ok intent, w') ->
  (intent = BILLING_ACCOUNT_SPECIFIC \/ intent = BILLING_GENERAL \/ intent = SALES_GENERAL) /\
  exists rq, w_requests w' = (w_requests w ++ [rq])%list.
Proof.
  unfold classify_query, bind, ret.
  destruct (complete _ w) as [[out|e] w1] eqn:Ec; [|discriminate].
  intros H. injection H as <- <-. split.
  - destruct (Py.contains BILLING_ACCOUNT_SPECIFIC _); [left; reflexivity|].
    destruct (Py.contains BILLING_GENERAL _); [right; left; reflexivity|].
    right; right; reflexivity.
  - eexists. exact (complete_ok _ _ _ _ Ec).
Qed.

(** [_check_needs_billing_routing] routes to billing exactly when the
    query is classified [billing_account_specific]: the draft response is
    never looked at, since the dollar-amount guardrail it calls only
    blocks that same intent. *)
Theorem check_needs_billing_routing_intent_only (query response : string) (w : world) :
  check_needs_billing_routing query response w =
  (intent <- classify_query query ;; ret (String.eqb intent BILLING_ACCOUNT_SPECIFIC)) w.
Proof.
  unfold check_needs_billing_routing, bind.
  destruct (classify_query query w) as [[i|e] w']; [|reflexivity].
  destruct (String.eqb i BILLING_ACCOUNT_SPECIFIC) eqn:E; [reflexivity|].
  unfold Guardrails.check_sales_agent_response. rewrite E. reflexivity.
Qed.

End SalesExtras.

Module SalesExtrasWitness.
Import Sales SalesExtras.

Lemma classify_query_labels_witness :
  exists i w', classify_query "How much do I owe?"
                 (Demo.world_of Sessions.empty_store ["billing_account_specific"] Demo.invoice_index)
               = (Ok i, w') /\
    (i = BILLING_ACCOUNT_SPECIFIC \/ i = BILLING_GENERAL \/ i = SALES_GENERAL).
Proof.
  destruct (classify_query "How much do I owe?"
              (Demo.world_of Sessions.empty_store ["billing_account_specific"] Demo.invoice_index))
    as [[i|e] w'] eqn:E; [|vm_compute in E; discriminate].
  exists i, w'. split; [reflexivity|].
  exact (proj1 (classify_query_labels _ _ _ _ E)).
Defined.

End SalesExtrasWitness.

Module GraphProps.
Import Json Graph.

Lemma bind_ok {A B} (x : M A) (f : A -> M B) (w : world) (b : B) (w'' : world) :
  bind x f w = (Ok b, w'') -> exists a w', x w = (Ok a, w') /\ f a w' = (Ok b, w'').
Proof. unfold bind. destruct (x w) as [[a|e] w']; intros H; [eauto | discriminate]. Qed.

Lemma ret_ok {A} (a b : A) (w w' : world) : ret a w = (Ok b, w') -> b = a /\ w' = w.
Proof. unfold ret. intros H; injection H as <- <-. auto. Qed.

Lemma router_node_keeps (s : GraphState) (w : world) (s' : GraphState) (w' : world) :
  router_node s w = (Ok s', w') ->
  manager_result s' = manager_result s /\ citations s' = citations s.
Proof.
  unfold router_node. intros H. apply bind_ok in H as (s1 & w1 & H1 & H2).
  apply bind_ok in H2 as (i & w2 & _ & H3). apply ret_ok in H3 as [-> _]. cbn.
  destruct (String.eqb (session_id s) "").
  - apply ret_ok in H1 as [-> _]. auto.
  - apply bind_ok in H1 as (st & w3 & _ & H4).
    destruct (Extractor.extract_and_update_session (query s) (session_id s) st) as [e st'].
    apply bind_ok in H4 as (u & w4 & _ & H5).
    destruct (Sessions.get st' (session_id s)) as [sd|];
      [destruct (String.eqb (Sessions.get_context_summary sd) "")|];
      apply ret_ok in H5 as [-> _]; auto.
Qed.

Lemma sales_node_keeps (s : GraphState) (w : world) (s' : GraphState) (w' : world) :
  truthy (manager_result s) = false ->
  sales_node s w = (Ok s', w') ->
  manager_result s' = manager_result s.
Proof.
  intros Hf. unfold sales_node. rewrite Hf. intros H.
  apply bind_ok in H as ([resp nr] & w1 & _ & H2).
  destruct nr; apply ret_ok in H2 as [-> _]; reflexivity.
Qed.

Lemma manager_node_result (s : GraphState) (w : world) (s' : GraphState) (w' : world) :
  manager_node s w = (Ok s', w') ->
  get_or (manager_result s') "approved" PNone = PBool false \/
  (get_or (manager_result s') "approved" PNone = PBool true /\
   truthy (get_or (manager_result s') "citations" (PList [])) = true).
Proof.
  unfold manager_node. intros H. apply bind_ok in H as ([b r] & w1 & H1 & H2).
  unfold lift in H1. injection H1 as H1 _.
  destruct (ManagerProps.validate_response_shape _ _ _ _ H1) as (v & Hv & Hb & Hr).
  apply bind_ok in H2 as (r50 & w2 & _ & H3). apply ret_ok in H3 as [-> _].
  destruct b.
  - right. cbn. rewrite Hr, <- Hb. cbn.
    destruct (ManagerProps.manager_validate_valid _ _ _ _ _ _ Hv (eq_sym Hb)) as [Hc _].
    split; [reflexivity | exact Hc].
  - left. cbn. rewrite Hr, <- Hb. reflexivity.
Qed.

Lemma format_response_keeps (s : GraphState) (w : world) (s' : GraphState) (w' : world) :
  format_response_node s w = (Ok s', w') ->
  manager_result s' = manager_result s /\
  (truthy (get_or (manager_result s) "approved" PNone) = true ->
   citations s' = get_or (manager_result s) "citations" (PList [])).
Proof.
  unfold format_response_node. intros H.
  destruct (truthy (get_or (manager_result s) "approved" PNone)) eqn:Ea.
  - apply bind_ok in H as (cs & w1 & _ & H2). apply bind_ok in H2 as (ls & w2 & _ & H3).
    destruct (get_or (manager_result s) "answer" (PStr "")); try discriminate.
    apply ret_ok in H3 as [-> _]. cbn. auto.
  - apply ret_ok in H as [-> _]. cbn. split; [reflexivity | discriminate].
Qed.

Lemma billing_path_approval (s : GraphState) (w : world) (s' : GraphState) (w' : world) :
  billing_path s w = (Ok s', w') ->
  get_or (manager_result s') "approved" PNone = PBool false \/
  (get_or (manager_result s') "approved" PNone = PBool true /\ truthy (citations s') = true).
Proof.
  unfold billing_path. intros H. apply bind_ok in H as (s1 & w1 & _ & H2).
  apply bind_ok in H2 as (s2 & w2 & H2 & H3).
  destruct (format_response_keeps _ _ _ _ H3) as [Hm Hc]. rewrite Hm.
  destruct (manager_node_result _ _ _ _ H2) as [Hf | [Ht Hcs]]; [left; exact Hf|].
  right. split; [exact Ht|]. rewrite Hc by (rewrite Ht; reflexivity). exact Hcs.
Qed.

Lemma invoke_approval (q sid ctx : string) (w : world) (s' : GraphState) (w' : world) :
  invoke (initial_state q sid ctx) w = (Ok s', w') ->
  get_or (manager_result s') "approved" PNone = PNone \/
  get_or (manager_result s') "approved" PNone = PBool false \/
  (get_or (manager_result s') "approved" PNone = PBool true /\ truthy (citations s') = true).
Proof.
  unfold invoke. intros H. apply bind_ok in H as (s0 & w0 & H0 & H1).
  destruct (router_node_keeps _ _ _ _ H0) as [Hm0 _].
  destruct (route_after_router s0);
    [| right; exact (billing_path_approval _ _ _ _ H1) |];
    apply bind_ok in H1 as (s1 & w1 & H1 & H2);
    assert (Hm1 : manager_result s1 = PDict [])
      by (rewrite (sales_node_keeps _ _ _ _ (f_equal truthy Hm0) H1); exact Hm0);
    (destruct (route_after_sales s1);
      [ apply ret_ok in H2 as [-> _]; left; rewrite Hm1; reflexivity
      | right; exact (billing_path_approval _ _ _ _ H2)
      | apply ret_ok in H2 as [-> _]; left; rewrite Hm1; reflexivity ]).
Qed.

End GraphProps.

Module GraphExtras.
Import Json Graph GraphProps.

(** [run_query] never reports an approval without evidence: when it
    returns, [approved] is [None] (the Sales path answered), [False], or
    [True], and in the last case its [citations] are truthy (a non-empty
    list on the billing path). *)
Theorem run_query_approval (q : string) (sid : option string) (w : world) (r : RunResult) :
  fst (run_query q sid w) = Ok r ->
  rr_approved r = PNone \/ rr_approved r = PBool false \/
  (rr_approved r = PBool true /\ truthy (rr_citations r) = true).
Proof.
  destruct (run_query q sid w) as [res0 w1] eqn:E. cbn [fst]. intros ->.
  unfold run_query in E.
  apply bind_ok in E as (ctx & w2 & _ & E).
  apply bind_ok in E as (fs & w3 & Hi & E).
  apply bind_ok in E as (u & w4 & _ & E).
  apply bind_ok in E as (u' & w5 & _ & E).
  apply ret_ok in E as [-> _]. cbn.
  exact (invoke_approval _ _ _ _ _ _ Hi).
Qed.

End GraphExtras.

Module GraphExtrasWitness.
Import Json Graph GraphExtras.

Lemma run_query_approval_witness :
  exists r, fst (run_query "How much do I owe?" None
                   (Demo.world_of Sessions.empty_store
                      ["billing_account_specific"; "You owe $137.14"] Demo.invoice_index))
            = Ok r /\
    rr_approved r = PBool true /\ truthy (rr_citations r) = true.
Proof.
  destruct (fst (run_query "How much do I owe?" None
                   (Demo.world_of Sessions.empty_store
                      ["billing_account_specific"; "You owe $137.14"] Demo.invoice_index)))
    as [r|e] eqn:E; [|vm_compute in E; discriminate].
  exists r. split; [reflexivity|].
  destruct (run_query_approval _ _ _ _ E) as [Hn | [Hf | Ht]];
    [vm_compute in E; injection E as <-; discriminate Hn
    | vm_compute in E; injection E as <-; discriminate Hf
    | exact Ht].
Defined.

End GraphExtrasWitness.

Module BillingManagerExtras.
Import Json.

(** [format_for_manager] is transparent to the Manager: validating its
    output gives the same verdict and the same payload as validating the
    Billing response itself, and both raise [AttributeError] on a value
    that is not a dict. *)
Theorem format_for_manager_transparent (thr : Q) (response : pyval) :
  (let? f := Billing.format_for_manager response in Manager.validate_response thr f) =
  Manager.validate_response thr response.
Proof.
  (* on a dict, both sides read [answer], [citations] and [top_score]
     with the same defaults *)
  destruct response as [| | | | | | kv]; reflexivity.
Qed.

End BillingManagerExtras.
